(** * django_local_library: the catalog application

    A shallow embedding of [catalog/models.py] and [catalog/views.py].

    - Database tables are finite maps from primary key to row.
    - A [datetime.date] is its proleptic Gregorian ordinal
      ([date.toordinal()]), so comparison of dates is comparison of
      integers and [timedelta(weeks=n)] adds [7 * n].  The ordinals are not
      bounded: [OverflowError] past year 9999 is left out.
    - A [uuid.UUID] is its 128-bit integer value ([UUID.int]).
    - A text is the string of the bytes of its UTF-8 encoding.
    - Views run in a state-and-abort monad over the entity store, the
      caller's session and the list of queries issued so far. *)

From stdpp Require Import gmap strings list fin_maps sorting.
From Stdlib Require Import ZArith Ascii String.

Local Open Scope string_scope.

(** ** Dates *)

Definition date := Z.

Definition timedelta_weeks (n : Z) : Z := (7 * n)%Z.

(** ** Strings *)

Module Str.

(** Folding of the 26 letters of ASCII to their small form. *)
Definition lower_ascii (c : ascii) : ascii :=
  let n := nat_of_ascii c in
  if (65 <=? n)%nat && (n <=? 90)%nat then ascii_of_nat (n + 32) else c.

Fixpoint lower (s : string) : string :=
  match s with
  | EmptyString => EmptyString
  | String c s' => String (lower_ascii c) (lower s')
  end.

Fixpoint startswith (p s : string) : bool :=
  match p, s with
  | EmptyString, _ => true
  | String a p', String b s' => Ascii.eqb a b && startswith p' s'
  | String _ _, EmptyString => false
  end.

(** [needle in hay] *)
Fixpoint contains (needle hay : string) : bool :=
  startswith needle hay ||
  match hay with
  | EmptyString => false
  | String _ hay' => contains needle hay'
  end.

(** Folding of the 26 letters of ASCII to their capital form. *)
Definition upper_ascii (c : ascii) : ascii :=
  let n := nat_of_ascii c in
  if (97 <=? n)%nat && (n <=? 122)%nat then ascii_of_nat (n - 32) else c.

Fixpoint upper (s : string) : string :=
  match s with
  | EmptyString => EmptyString
  | String c s' => String (upper_ascii c) (upper s')
  end.

(** The [__icontains] lookup: the backend compares the texts after folding
    them, with [fold] ([LIKE] on SQLite folds the letters of ASCII and
    nothing else; PostgreSQL and Oracle compare [UPPER(..)] of both sides). *)
Definition icontains (fold : string → string) (needle hay : string) : bool :=
  contains (fold needle) (fold hay).

(** The number of characters of a text: the bytes of its UTF-8 encoding that
    do not continue a character. *)
Definition continuation (c : ascii) : bool :=
  let n := nat_of_ascii c in (128 <=? n)%nat && (n <? 192)%nat.

Fixpoint char_length (s : string) : nat :=
  match s with
  | EmptyString => O
  | String c s' => ((if continuation c then 0 else 1) + char_length s')%nat
  end.

Definition hex_digit (n : Z) : ascii :=
  match String.get (Z.to_nat n) "0123456789abcdef" with
  | Some c => c
  | None => "0"%char
  end.

(** ['%0{width}x' % n] for [0 <= n < 16 ^ width]. *)
Fixpoint hex_fixed (width : nat) (n : Z) : string :=
  match width with
  | O => EmptyString
  | S w => hex_fixed w (n / 16)%Z +:+ String (hex_digit (n mod 16)%Z) EmptyString
  end.

End Str.

(** ** uuid *)

Module uuid.

(** [UUID.int], with [0 <= int < 2 ^ 128]. *)
Definition UUID := Z.

(** [UUID.__str__]: the 32 hex digits grouped 8-4-4-4-12. *)
Definition str (u : UUID) : string :=
  let hex := Str.hex_fixed 32 u in
  substring 0 8 hex +:+ "-" +:+ substring 8 4 hex +:+ "-" +:+
  substring 12 4 hex +:+ "-" +:+ substring 16 4 hex +:+ "-" +:+
  substring 20 12 hex.

End uuid.

(** ** Exceptions that the modelled code can raise *)

Inductive Exception :=
| AttributeError (msg : string)
| DoesNotExist.

Inductive Raises (A : Type) :=
| Returns (a : A)
| Raise (e : Exception).
Arguments Returns {A} a.
Arguments Raise {A} e.

(** * catalog/models.py *)

Module Genre.
Record t := { id : Z; name : string }.

Definition permissions : list (string * string) :=
  [ ("can_create_genre", "Create genre");
    ("can_update_genre", "Update genre");
    ("can_delete_genre", "Delete genre") ].

Definition str (self : t) : string := name self.
End Genre.

Module Language.
Record t := { id : Z; name : string }.

Definition permissions : list (string * string) :=
  [ ("can_create_language", "Create language");
    ("can_update_language", "Update language");
    ("can_delete_language", "Delete language") ].

Definition str (self : t) : string := name self.
End Language.

Module Author.
Record t := {
  id : Z;
  first_name : string;
  last_name : string;
  date_of_birth : option date;
  date_of_death : option date
}.

Definition permissions : list (string * string) :=
  [ ("can_create_author", "Create author");
    ("can_update_author", "Update author");
    ("can_delete_author", "Delete author") ].

Definition str (self : t) : string :=
  first_name self +:+ " " +:+ last_name self.
End Author.

Module Book.
Record t := {
  id : Z;
  title : string;
  author : option Z;      (* ForeignKey('Author', on_delete=SET_NULL, null=True) *)
  summary : string;
  isbn : string;
  genre : gset Z;         (* ManyToManyField(Genre) *)
  language : option Z     (* ForeignKey('Language', on_delete=SET_NULL, null=True) *)
}.

Definition permissions : list (string * string) :=
  [ ("can_create_book", "Create book");
    ("can_update_book", "Update book");
    ("can_delete_book", "Delete book") ].

Definition set_author (a : option Z) (self : t) : t :=
  {| id := id self; title := title self; author := a; summary := summary self;
     isbn := isbn self; genre := genre self; language := language self |}.

Definition set_language (l : option Z) (self : t) : t :=
  {| id := id self; title := title self; author := author self;
     summary := summary self; isbn := isbn self; genre := genre self;
     language := l |}.

Definition set_genre (g : gset Z) (self : t) : t :=
  {| id := id self; title := title self; author := author self;
     summary := summary self; isbn := isbn self; genre := g;
     language := language self |}.

Definition str (self : t) : string := title self.
End Book.

Module BookInstance.
Record t := {
  id : uuid.UUID;
  book : option Z;        (* ForeignKey('Book', on_delete=SET_NULL, null=True) *)
  imprint : string;
  due_back : option date;
  borrower : option Z;    (* ForeignKey(User, on_delete=SET_NULL, null=True) *)
  status : string
}.

Definition LOAN_STATUS : list (string * string) :=
  [ ("m", "Maintenance"); ("o", "On loan"); ("a", "Available"); ("r", "Reserved") ].

Definition status_default : string := "m".

Definition permissions : list (string * string) :=
  [ ("can_mark_returned", "Set book as returned");
    ("can_create_bookinstance", "Create bookinstance");
    ("can_update_bookinstance", "Update bookinstance");
    ("can_delete_bookinstance", "Delete bookinstance") ].

Definition set_due_back (d : option date) (self : t) : t :=
  {| id := id self; book := book self; imprint := imprint self; due_back := d;
     borrower := borrower self; status := status self |}.

Definition set_book (b : option Z) (self : t) : t :=
  {| id := id self; book := b; imprint := imprint self; due_back := due_back self;
     borrower := borrower self; status := status self |}.

(** The [is_overdue] property.  A [date] object is always truthy, so
    [self.due_back and ...] only tests for [None]. *)
Definition is_overdue (today : date) (self : t) : bool :=
  match due_back self with
  | Some d => if (today >? d)%Z then true else false
  | None => false
  end.

(** [__str__]: ['{0} ({1})'.format(self.id, self.book.title)].  The argument
    [self_book] is what the attribute access [self.book] evaluates to: the
    related row, or [None] when the foreign key is NULL. *)
Definition str (self_book : option Book.t) (self : t) : Raises string :=
  match self_book with
  | Some b => Returns (uuid.str (id self) +:+ " (" +:+ Book.title b +:+ ")")
  | None => Raise (AttributeError "'NoneType' object has no attribute 'title'")
  end.
End BookInstance.

(** ** The entity store *)

Inductive Model := MGenre | MLanguage | MAuthor | MBook | MBookInstance.

#[global] Instance Model_eq_dec : EqDecision Model.
Proof. solve_decision. Defined.

Record Store := {
  genres : gmap Z Genre.t;
  languages : gmap Z Language.t;
  authors : gmap Z Author.t;
  books : gmap Z Book.t;
  bookinstances : gmap Z BookInstance.t
}.

Definition empty_store : Store :=
  {| genres := ∅; languages := ∅; authors := ∅; books := ∅; bookinstances := ∅ |}.

Definition with_genres (f : gmap Z Genre.t → gmap Z Genre.t) (db : Store) : Store :=
  {| genres := f (genres db); languages := languages db; authors := authors db;
     books := books db; bookinstances := bookinstances db |}.

Definition with_languages (f : gmap Z Language.t → gmap Z Language.t) (db : Store) : Store :=
  {| genres := genres db; languages := f (languages db); authors := authors db;
     books := books db; bookinstances := bookinstances db |}.

Definition with_authors (f : gmap Z Author.t → gmap Z Author.t) (db : Store) : Store :=
  {| genres := genres db; languages := languages db; authors := f (authors db);
     books := books db; bookinstances := bookinstances db |}.

Definition with_books (f : gmap Z Book.t → gmap Z Book.t) (db : Store) : Store :=
  {| genres := genres db; languages := languages db; authors := authors db;
     books := f (books db); bookinstances := bookinstances db |}.

Definition with_bookinstances
    (f : gmap Z BookInstance.t → gmap Z BookInstance.t) (db : Store) : Store :=
  {| genres := genres db; languages := languages db; authors := authors db;
     books := books db; bookinstances := f (bookinstances db) |}.

(** [on_delete=models.SET_NULL]: every row whose foreign key [fk] points at
    the deleted primary key keeps existing, with that key set to NULL. *)
Definition SET_NULL {R : Type} (fk : R → option Z) (set_fk : option Z → R → R)
    (pk : Z) (rows : gmap Z R) : gmap Z R :=
  (λ r, if bool_decide (fk r = Some pk) then set_fk None r else r) <$> rows.

(** Deleting a [Genre] drops its rows of the many-to-many link table. *)
Definition unlink_genre (pk : Z) (rows : gmap Z Book.t) : gmap Z Book.t :=
  (λ b, Book.set_genre (Book.genre b ∖ {[pk]}) b) <$> rows.

(** [obj.delete()] for each model, with the [on_delete] handlers that the
    fields referencing it declare. *)
Definition delete_author (pk : Z) (db : Store) : Store :=
  with_authors (delete pk)
    (with_books (SET_NULL Book.author Book.set_author pk) db).

Definition delete_language (pk : Z) (db : Store) : Store :=
  with_languages (delete pk)
    (with_books (SET_NULL Book.language Book.set_language pk) db).

Definition delete_book (pk : Z) (db : Store) : Store :=
  with_books (delete pk)
    (with_bookinstances (SET_NULL BookInstance.book BookInstance.set_book pk) db).

Definition delete_genre (pk : Z) (db : Store) : Store :=
  with_genres (delete pk) (with_books (unlink_genre pk) db).

Definition delete_bookinstance (pk : Z) (db : Store) : Store :=
  with_bookinstances (delete pk) db.

(** The attribute access [self.book] on a [BookInstance]. *)
Definition BookInstance_book (db : Store) (self : BookInstance.t)
    : Raises (option Book.t) :=
  match BookInstance.book self with
  | None => Returns None
  | Some k =>
      match books db !! k with
      | Some b => Returns (Some b)
      | None => Raise DoesNotExist
      end
  end.

(** [str(book_inst)] evaluated against the store. *)
Definition BookInstance_str (db : Store) (self : BookInstance.t) : Raises string :=
  match BookInstance_book db self with
  | Returns b => BookInstance.str b self
  | Raise e => Raise e
  end.

(** The capability names that the models declare ([Meta.permissions]). *)
Definition declared_permissions : list (string * string) :=
  Genre.permissions ++ Language.permissions ++ Book.permissions ++
  BookInstance.permissions ++ Author.permissions.

Definition capability_names : gset string :=
  list_to_set (declared_permissions.*1).

(** The capability names as the access policy lists them: [can_create_],
    [can_update_] and [can_delete_] for each entity, plus
    [can_mark_returned]. *)
Definition policy_entities : list string :=
  ["genre"; "language"; "author"; "book"; "bookinstance"].

Definition policy_capabilities : gset string :=
  list_to_set
    ("can_mark_returned" ::
     (e ← policy_entities;
      ["can_create_" +:+ e; "can_update_" +:+ e; "can_delete_" +:+ e])).

(** * django.contrib.auth *)

Record User := {
  user_id : Z;
  is_authenticated : bool;
  is_active : bool;
  is_superuser : bool;
  user_permissions : gset string
}.

(** [user.has_perm(perm)]: an active superuser holds every permission, an
    inactive user (the anonymous user among them) holds none. *)
Definition has_perm (u : User) (perm : string) : bool :=
  is_active u && (is_superuser u || bool_decide (perm ∈ user_permissions u)).

(** * Requests, responses and the view monad *)

(** [request.method], for the two methods the pages are requested with. *)
Inductive Method := GET | POST.

(** A submitted model form, after the form fields converted the raw values
    (text stripped of surrounding blanks, dates and keys parsed). *)
Inductive Row :=
| GenreRow (r : Genre.t)
| LanguageRow (r : Language.t)
| AuthorRow (r : Author.t)
| BookRow (r : Book.t)
| BookInstanceRow (r : BookInstance.t).

(** The [page] parameter of a listing request: absent or empty, an integer,
    the word [last], or anything else. *)
Inductive PageParam :=
| PageAbsent
| PageNumber (n : Z)
| PageLast
| PageOther.

(** [request.POST] carries the [renewal_date] of the renewal form (absent or
    unparsable: [None]) or the fields of a model form; [request.GET] carries
    the [page] of a listing. *)
Record Request := {
  user : User;
  method : Method;
  POST_renewal_date : option date;
  POST_row : option Row;
  GET_page : PageParam
}.

(** What the process reads from its surroundings: the clock behind
    [date.today()]; where the configured database backend places NULL when a
    query orders a column ascending without saying so (first on SQLite and
    MySQL, last on PostgreSQL and Oracle); and how that backend folds a text
    before a case-insensitive match. *)
Record Env := {
  today : date;
  nulls_first_by_default : bool;
  like_fold : string → string
}.

Inductive Query :=
| SELECT (m : Model)
| INSERT (m : Model)
| UPDATE (m : Model)
| DELETE (m : Model).

(** Besides the entity store, the caller's session and the queries issued,
    the world holds the ids of the users of [django.contrib.auth] and, for
    each table, the largest key its [AutoField] sequence has handed out. *)
Record World := {
  db : Store;
  session : gmap string Z;
  queries : list Query;
  users : gset Z;
  sequence : Model → Z
}.

Definition issue (q : Query) (w : World) : World :=
  {| db := db w; session := session w; queries := queries w ++ [q];
     users := users w; sequence := sequence w |}.

Definition with_db (f : Store → Store) (w : World) : World :=
  {| db := f (db w); session := session w; queries := queries w;
     users := users w; sequence := sequence w |}.

Definition with_session (f : gmap string Z → gmap string Z) (w : World) : World :=
  {| db := db w; session := f (session w); queries := queries w;
     users := users w; sequence := sequence w |}.

Definition with_sequence (m : Model) (k : Z) (w : World) : World :=
  {| db := db w; session := session w; queries := queries w;
     users := users w;
     sequence := λ m', if decide (m' = m) then k else sequence w m' |}.

Module forms.

Record RenewBookForm := {
  is_bound : bool;
  initial : option date;
  cleaned_data : option date;
  errors : list string
}.

(** [RenewBookForm(initial={'renewal_date': d})] *)
Definition unbound (d : date) : RenewBookForm :=
  {| is_bound := false; initial := Some d; cleaned_data := None; errors := [] |}.

Definition invalid (msg : string) : RenewBookForm :=
  {| is_bound := true; initial := None; cleaned_data := None; errors := [msg] |}.

(** Modelled from the spec: catalog/forms.py, which defines [RenewBookForm],
    is not among the sources.  The spec gives its validation: a renewal date
    is required, and it is rejected when it is in the past or more than 4
    weeks in the future.  This is the form bound to the submitted date,
    after cleaning. *)
Definition bound (today : date) (data : option date) : RenewBookForm :=
  match data with
  | None => invalid "This field is required."
  | Some d =>
      if (d <? today)%Z then invalid "Invalid date - renewal in past"
      else if (d >? today + timedelta_weeks 4)%Z
      then invalid "Invalid date - renewal more than 4 weeks ahead"
      else {| is_bound := true; initial := None; cleaned_data := Some d; errors := [] |}
  end.

Definition is_valid (form : RenewBookForm) : bool :=
  is_bound form && bool_decide (errors form = []).

End forms.

Record IndexContext := {
  num_books : nat;
  num_instances : nat;
  num_instances_available : nat;
  num_authors : nat;
  num_fantasy_genres : nat;
  num_thrones_books : nat;
  num_visits : Z
}.

Inductive Context :=
| CtxIndex (c : IndexContext)
| CtxObjectList (object_list : list BookInstance.t)
| CtxRenew (form : forms.RenewBookForm) (bookinst : BookInstance.t)
| CtxModelForm (object : option Row) (form_errors : bool).

Inductive Response :=
| HttpResponse (template_name : string) (context : Context)
| HttpResponseRedirect (url : string)
| RedirectToLogin
| PermissionDenied
| Http404.

(** The spec's Forbidden signal: the access policy refused the request.  The
    framework delivers it as status 403 or as a redirect to the login page. *)
Definition is_forbidden (r : Response) : bool :=
  match r with
  | PermissionDenied | RedirectToLogin => true
  | _ => false
  end.

Inductive Outcome (A : Type) :=
| Done (a : A)
| Stop (r : Response).
Arguments Done {A} a.
Arguments Stop {A} r.

Definition M (A : Type) : Type := World → Outcome A * World.

#[global] Instance M_ret : MRet M := λ A a w, (Done a, w).

#[global] Instance M_bind : MBind M := λ A B f c w,
  match c w with
  | (Done a, w') => f a w'
  | (Stop r, w') => (Stop r, w')
  end.

Definition abort {A : Type} (r : Response) : M A := λ w, (Stop r, w).

(** The response of a view and the world it leaves behind. *)
Definition respond (view : M Response) (w : World) : Response * World :=
  match view w with
  | (Done r, w') => (r, w')
  | (Stop r, w') => (r, w')
  end.

(** ** Sessions *)

(** [request.session.get(key, default)] *)
Definition session_get (key : string) (dflt : Z) : M Z :=
  λ w, (Done (default dflt (session w !! key)), w).

(** [request.session[key] = value] *)
Definition session_set (key : string) (value : Z) : M unit :=
  λ w, (Done tt, with_session <[key := value]> w).

(** ** Query sets *)

(** A query set is lazy: it is a query over whatever the store holds at the
    moment it is evaluated. *)
Record QuerySet (R : Type) := {
  qs_model : Model;
  qs_rows : Store → list R
}.
Arguments qs_model {R} _.
Arguments qs_rows {R} _ _.

Definition objects {R : Type} (m : Model) (table : Store → gmap Z R) : QuerySet R :=
  {| qs_model := m; qs_rows := λ s, (map_to_list (table s)).*2 |}.

Definition Genre_objects : QuerySet Genre.t := objects MGenre genres.
Definition Language_objects : QuerySet Language.t := objects MLanguage languages.
Definition Author_objects : QuerySet Author.t := objects MAuthor authors.
Definition Book_objects : QuerySet Book.t := objects MBook books.
Definition BookInstance_objects : QuerySet BookInstance.t :=
  objects MBookInstance bookinstances.

Definition all {R : Type} (qs : QuerySet R) : QuerySet R := qs.

Definition qs_filter {R : Type} (p : R → bool) (qs : QuerySet R) : QuerySet R :=
  {| qs_model := qs_model qs; qs_rows := λ s, List.filter p (qs_rows qs s) |}.

Definition sorted_by {R : Type} (le : R → R → bool) : relation R :=
  λ x y, Is_true (le x y).

Definition order_by {R : Type} (le : R → R → bool) (qs : QuerySet R) : QuerySet R :=
  {| qs_model := qs_model qs;
     qs_rows := λ s, merge_sort (sorted_by le) (qs_rows qs s) |}.

(** [qs.count()] *)
Definition count {R : Type} (qs : QuerySet R) : M nat :=
  λ w, (Done (List.length (qs_rows qs (db w))), issue (SELECT (qs_model qs)) w).

(** Field lookups. *)
Definition status__exact (v : string) (i : BookInstance.t) : bool :=
  String.eqb (BookInstance.status i) v.

Definition borrower_is (u : User) (i : BookInstance.t) : bool :=
  bool_decide (BookInstance.borrower i = Some (user_id u)).

Definition name__icontains (env : Env) (v : string) (g : Genre.t) : bool :=
  Str.icontains (like_fold env) v (Genre.name g).

Definition title__icontains (env : Env) (v : string) (b : Book.t) : bool :=
  Str.icontains (like_fold env) v (Book.title b).

(** Orderings of a nullable date column. *)
Definition asc_nulls_last (a b : option date) : bool :=
  match a, b with
  | Some x, Some y => (x <=? y)%Z
  | Some _, None => true
  | None, Some _ => false
  | None, None => true
  end.

Definition asc_nulls_first (a b : option date) : bool :=
  match a, b with
  | Some x, Some y => (x <=? y)%Z
  | Some _, None => false
  | None, Some _ => true
  | None, None => true
  end.

(** [order_by('due_back')]: ascending, NULL where the backend puts it. *)
Definition by_due_back (env : Env) (x y : BookInstance.t) : bool :=
  if nulls_first_by_default env
  then asc_nulls_first (BookInstance.due_back x) (BookInstance.due_back y)
  else asc_nulls_last (BookInstance.due_back x) (BookInstance.due_back y).

(** [order_by(F('due_back').asc(nulls_last=True))] *)
Definition by_due_back_nulls_last (x y : BookInstance.t) : bool :=
  asc_nulls_last (BookInstance.due_back x) (BookInstance.due_back y).

(** [get_object_or_404(BookInstance, pk=pk)] *)
Definition get_object_or_404 (pk : Z) : M BookInstance.t :=
  λ w,
    match bookinstances (db w) !! pk with
    | Some obj => (Done obj, issue (SELECT MBookInstance) w)
    | None => (Stop Http404, issue (SELECT MBookInstance) w)
    end.

(** [book_inst.save()] on an object that was loaded from the table. *)
Definition save (obj : BookInstance.t) : M unit :=
  λ w, (Done tt,
        issue (UPDATE MBookInstance)
          (with_db (with_bookinstances <[BookInstance.id obj := obj]>) w)).

(** ** Access control *)

(** [AccessMixin.handle_no_permission] *)
Definition handle_no_permission (request : Request) : Response :=
  if is_authenticated (user request) then PermissionDenied else RedirectToLogin.

(** The [@login_required] decorator. *)
Definition login_required (request : Request) (view : M Response) : M Response :=
  if is_authenticated (user request) then view else abort RedirectToLogin.

(** The [@permission_required(perm)] decorator, which does not raise. *)
Definition permission_required (perm : string) (request : Request)
    (view : M Response) : M Response :=
  if has_perm (user request) perm then view else abort RedirectToLogin.

Definition LoginRequiredMixin (request : Request) (view : M Response) : M Response :=
  if is_authenticated (user request) then view
  else abort (handle_no_permission request).

Definition PermissionRequiredMixin (perm : string) (request : Request)
    (view : M Response) : M Response :=
  if has_perm (user request) perm then view
  else abort (handle_no_permission request).

Module urls.
(** urls.py is not among the sources: a URL is named by its pattern. *)
Definition reverse (viewname : string) : string := viewname.
End urls.

Definition render (template_name : string) (context : Context) : M Response :=
  mret (HttpResponse template_name context).

(** ** Pagination of the list views *)

(** [paginate_by = 10], the same in every list view. *)
Definition paginate_by : nat := 10.

Module Paginator.

(** [Paginator.num_pages], with no orphans and the empty first page allowed:
    [ceil(max(1, count) / per_page)]. *)
Definition num_pages (per_page count : nat) : nat :=
  (Nat.max 1 count + per_page - 1) / per_page.

(** [Paginator.page(number)]: [None] stands for [EmptyPage]. *)
Definition page {R : Type} (per_page : nat) (object_list : list R) (number : Z)
    : option (list R) :=
  if (number <? 1)%Z then None
  else if (Z.of_nat (num_pages per_page (List.length object_list)) <? number)%Z then None
  else
    let bottom := ((Z.to_nat number - 1) * per_page)%nat in
    let top := (bottom + per_page)%nat in
    let top := if (List.length object_list <=? top)%nat
               then List.length object_list else top in
    Some (take (top - bottom) (drop bottom object_list)).

End Paginator.

(** [MultipleObjectMixin.paginate_queryset]: the objects of the requested
    page, or [Http404]. *)
Definition paginate_queryset {R : Type} (queryset : list R) (page_size : nat)
    (page : PageParam) : Outcome (list R) :=
  let page_number :=
    match page with
    | PageAbsent => Some 1%Z
    | PageNumber n => Some n
    | PageLast => Some (Z.of_nat (Paginator.num_pages page_size (List.length queryset)))
    | PageOther => None
    end in
  match page_number with
  | None => Stop Http404
  | Some n =>
      match Paginator.page page_size queryset n with
      | Some object_list => Done object_list
      | None => Stop Http404
      end
  end.

(** The paginator on a query set: it counts the rows, and fetches the page
    when there is one. *)
Definition paginate {R : Type} (qs : QuerySet R) (page : PageParam) : M (list R) :=
  λ w,
    match paginate_queryset (qs_rows qs (db w)) paginate_by page with
    | Done object_list =>
        (Done object_list, issue (SELECT (qs_model qs)) (issue (SELECT (qs_model qs)) w))
    | Stop r => (Stop r, issue (SELECT (qs_model qs)) w)
    end.

(** * catalog/views.py *)

(** View function for the home page of the site. *)
Definition index (env : Env) (request : Request) : M Response :=
  login_required request (
    num_books ← count (all Book_objects);
    num_instances ← count (all BookInstance_objects);
    num_instances_available ← count (qs_filter (status__exact "a") BookInstance_objects);
    num_authors ← count Author_objects;
    num_visits ← session_get "num_visits" 0;
    session_set "num_visits" (num_visits + 1);;
    num_fantasy_genres ← count (qs_filter (name__icontains env "fantasy") Genre_objects);
    num_thrones_books ← count (qs_filter (title__icontains env "thrones") Book_objects);
    render "index.html"
      (CtxIndex {| num_books := num_books;
                   num_instances := num_instances;
                   num_instances_available := num_instances_available;
                   num_authors := num_authors;
                   num_fantasy_genres := num_fantasy_genres;
                   num_thrones_books := num_thrones_books;
                   num_visits := num_visits |})).

(** [LoanedBooksByUserListView.get_queryset] *)
Definition LoanedBooksByUserListView_get_queryset (env : Env) (request : Request)
    : QuerySet BookInstance.t :=
  order_by (by_due_back env)
    (qs_filter (status__exact "o")
       (qs_filter (borrower_is (user request)) BookInstance_objects)).

(** The list views hand the query set to the paginator ([paginate_by = 10]):
    [object_list] in the context is the requested page. *)
Definition LoanedBooksByUserListView (env : Env) (request : Request) : M Response :=
  LoginRequiredMixin request (
    object_list ← paginate (LoanedBooksByUserListView_get_queryset env request)
                    (GET_page request);
    render "catalog/bookinstance_list_borrowed_user.html" (CtxObjectList object_list)).

(** [BookinstancesAllListView.get_queryset] *)
Definition BookinstancesAllListView_get_queryset : QuerySet BookInstance.t :=
  order_by by_due_back_nulls_last BookInstance_objects.

Definition BookinstancesAllListView (request : Request) : M Response :=
  PermissionRequiredMixin "catalog.can_mark_returned" request (
    object_list ← paginate BookinstancesAllListView_get_queryset (GET_page request);
    render "catalog/bookinstance_list_all.html" (CtxObjectList object_list)).

(** View function for renewing a specific [BookInstance] by a librarian. *)
Definition renew_book_librarian (env : Env) (request : Request) (pk : Z) : M Response :=
  permission_required "catalog.can_mark_returned" request (
    book_inst ← get_object_or_404 pk;
    match method request with
    | POST =>
        let form := forms.bound (today env) (POST_renewal_date request) in
        if forms.is_valid form then
          let book_inst := BookInstance.set_due_back (forms.cleaned_data form) book_inst in
          save book_inst;;
          mret (HttpResponseRedirect (urls.reverse "all-bookinstances"))
        else
          render "catalog/book_renew_librarian.html" (CtxRenew form book_inst)
    | GET =>
        let proposed_renewal_date := (today env + timedelta_weeks 3)%Z in
        let form := forms.unbound proposed_renewal_date in
        render "catalog/book_renew_librarian.html" (CtxRenew form book_inst)
    end).

(** ** The generic editing views *)

Inductive GenericView := CreateView | UpdateView | DeleteView.

(** A class-based editing view is its class attributes. *)
Record EditView := {
  model : Model;
  generic : GenericView;
  perm_required : string;
  success_url : string
}.

Definition row_model (r : Row) : Model :=
  match r with
  | GenreRow _ => MGenre
  | LanguageRow _ => MLanguage
  | AuthorRow _ => MAuthor
  | BookRow _ => MBook
  | BookInstanceRow _ => MBookInstance
  end.

Definition Model_eqb (a b : Model) : bool :=
  match a, b with
  | MGenre, MGenre | MLanguage, MLanguage | MAuthor, MAuthor
  | MBook, MBook | MBookInstance, MBookInstance => true
  | _, _ => false
  end.

Definition get_row (m : Model) (pk : Z) (s : Store) : option Row :=
  match m with
  | MGenre => GenreRow <$> genres s !! pk
  | MLanguage => LanguageRow <$> languages s !! pk
  | MAuthor => AuthorRow <$> authors s !! pk
  | MBook => BookRow <$> books s !! pk
  | MBookInstance => BookInstanceRow <$> bookinstances s !! pk
  end.

(** The row as it is stored under primary key [pk]. *)
Definition with_pk (pk : Z) (r : Row) : Row :=
  match r with
  | GenreRow g => GenreRow {| Genre.id := pk; Genre.name := Genre.name g |}
  | LanguageRow l => LanguageRow {| Language.id := pk; Language.name := Language.name l |}
  | AuthorRow a =>
      AuthorRow {| Author.id := pk; Author.first_name := Author.first_name a;
                   Author.last_name := Author.last_name a;
                   Author.date_of_birth := Author.date_of_birth a;
                   Author.date_of_death := Author.date_of_death a |}
  | BookRow b =>
      BookRow {| Book.id := pk; Book.title := Book.title b; Book.author := Book.author b;
                 Book.summary := Book.summary b; Book.isbn := Book.isbn b;
                 Book.genre := Book.genre b; Book.language := Book.language b |}
  | BookInstanceRow i =>
      BookInstanceRow
        {| BookInstance.id := pk; BookInstance.book := BookInstance.book i;
           BookInstance.imprint := BookInstance.imprint i;
           BookInstance.due_back := BookInstance.due_back i;
           BookInstance.borrower := BookInstance.borrower i;
           BookInstance.status := BookInstance.status i |}
  end.

Definition put_row (pk : Z) (r : Row) (s : Store) : Store :=
  match with_pk pk r with
  | GenreRow g => with_genres <[pk := g]> s
  | LanguageRow l => with_languages <[pk := l]> s
  | AuthorRow a => with_authors <[pk := a]> s
  | BookRow b => with_books <[pk := b]> s
  | BookInstanceRow i => with_bookinstances <[pk := i]> s
  end.

Definition delete_row (m : Model) (pk : Z) (s : Store) : Store :=
  match m with
  | MGenre => delete_genre pk s
  | MLanguage => delete_language pk s
  | MAuthor => delete_author pk s
  | MBook => delete_book pk s
  | MBookInstance => delete_bookinstance pk s
  end.

(** The key of a new row.  An [AutoField] key is one more than the largest
    key the table has ever held (AUTOINCREMENT), so the key of a deleted row
    is not used again; the key of a [BookInstance] is the [uuid4] default
    that its form carries. *)
Definition largest_key {R : Type} (table : gmap Z R) : Z :=
  (map_fold (λ k _ acc, k `max` acc) 0 table)%Z.

Definition next_id {R : Type} (last : Z) (table : gmap Z R) : Z :=
  (1 + last `max` largest_key table)%Z.

Definition new_pk (r : Row) (w : World) : Z :=
  match r with
  | GenreRow _ => next_id (sequence w MGenre) (genres (db w))
  | LanguageRow _ => next_id (sequence w MLanguage) (languages (db w))
  | AuthorRow _ => next_id (sequence w MAuthor) (authors (db w))
  | BookRow _ => next_id (sequence w MBook) (books (db w))
  | BookInstanceRow i => BookInstance.id i
  end.

(** The key under which an update is saved: the key of the object for the
    tables with an [AutoField], whose forms have no [id] field; the posted
    [id] for a [BookInstance], whose primary key is a field of the form. *)
Definition saved_pk (pk : Z) (r : Row) : Z :=
  match r with
  | BookInstanceRow i => BookInstance.id i
  | _ => pk
  end.

(** Field validation of the model forms, from the field declarations. *)
Definition CharField (max_length : nat) (blank : bool) (v : string) : bool :=
  (Str.char_length v <=? max_length)%nat && (blank || negb (String.eqb v "")).

Definition ForeignKey {R : Type} (table : gmap Z R) (blank : bool) (v : option Z) : bool :=
  match v with
  | Some k => bool_decide (is_Some (table !! k))
  | None => blank
  end.

Definition ManyToManyField {R : Type} (table : gmap Z R) (v : gset Z) : bool :=
  bool_decide (v ≠ ∅) && bool_decide (set_Forall (λ k, is_Some (table !! k)) v).

Definition choices (options : list (string * string)) (blank : bool) (v : string) : bool :=
  (blank && String.eqb v "") || existsb (String.eqb v) (options.*1).

(** The borrower of a [BookInstance] is a user of [django.contrib.auth]. *)
Definition UserKey (users : gset Z) (blank : bool) (v : option Z) : bool :=
  match v with
  | Some u => bool_decide (u ∈ users)
  | None => blank
  end.

Definition full_clean (users : gset Z) (s : Store) (r : Row) : bool :=
  match r with
  | GenreRow g => CharField 200 false (Genre.name g)
  | LanguageRow l => CharField 200 false (Language.name l)
  | AuthorRow a =>
      CharField 100 false (Author.first_name a) &&
      CharField 100 false (Author.last_name a)
  | BookRow b =>
      CharField 200 false (Book.title b) &&
      ForeignKey (authors s) false (Book.author b) &&
      CharField 3000 true (Book.summary b) &&
      CharField 13 true (Book.isbn b) &&
      ManyToManyField (genres s) (Book.genre b) &&
      ForeignKey (languages s) false (Book.language b)
  | BookInstanceRow i =>
      ForeignKey (books s) false (BookInstance.book i) &&
      CharField 200 false (BookInstance.imprint i) &&
      UserKey users true (BookInstance.borrower i) &&
      CharField 1 true (BookInstance.status i) &&
      choices BookInstance.LOAN_STATUS true (BookInstance.status i)
  end.

(** The primary key of a [BookInstance] is a field of its form, and a new
    row may not take a key that is in use. *)
Definition validate_unique (v : EditView) (s : Store) (r : Row) : bool :=
  match generic v, r with
  | CreateView, BookInstanceRow i =>
      bool_decide (bookinstances s !! BookInstance.id i = None)
  | _, _ => true
  end.

Definition form_valid (v : EditView) (users : gset Z) (s : Store)
    (data : option Row) : option Row :=
  match data with
  | Some r =>
      if Model_eqb (row_model r) (model v) && full_clean users s r &&
         validate_unique v s r
      then Some r else None
  | None => None
  end.

(** [self.get_object()] of the update and delete views. *)
Definition get_object (m : Model) (pk : Z) : M Row :=
  λ w,
    match get_row m pk (db w) with
    | Some obj => (Done obj, issue (SELECT m) w)
    | None => (Stop Http404, issue (SELECT m) w)
    end.

(** The sequence of a table with an [AutoField] moves on to the new key. *)
Definition advance (r : Row) (k : Z) (w : World) : World :=
  match r with
  | BookInstanceRow _ => w
  | _ => with_sequence (row_model r) k w
  end.

Definition objects_create (r : Row) : M unit :=
  λ w, (Done tt, issue (INSERT (row_model r))
                   (advance r (new_pk r w) (with_db (put_row (new_pk r w) r) w))).

Definition objects_update (pk : Z) (r : Row) : M unit :=
  λ w, (Done tt, issue (UPDATE (row_model r))
                   (with_db (put_row (saved_pk pk r) r) w)).

Definition objects_delete (m : Model) (pk : Z) : M unit :=
  λ w, (Done tt, issue (DELETE m) (with_db (delete_row m pk) w)).

(** [form.is_valid()] of the model form bound to [request.POST]. *)
Definition get_form (v : EditView) (request : Request) : M (option Row) :=
  λ w, (Done (form_valid v (users w) (db w) (POST_row request)), w).

Definition model_name (m : Model) : string :=
  match m with
  | MGenre => "genre"
  | MLanguage => "language"
  | MAuthor => "author"
  | MBook => "book"
  | MBookInstance => "bookinstance"
  end.

(** The default template of a generic view: [catalog/<model><suffix>.html]. *)
Definition template_of (v : EditView) (suffix : string) : string :=
  "catalog/" +:+ model_name (model v) +:+ suffix +:+ ".html".

Definition edit (v : EditView) (request : Request) (pk : Z) : M Response :=
  match generic v with
  | CreateView =>
      match method request with
      | GET => render (template_of v "_form") (CtxModelForm None false)
      | POST =>
          form ← get_form v request;
          match form with
          | Some r => objects_create r;; mret (HttpResponseRedirect (success_url v))
          | None => render (template_of v "_form") (CtxModelForm None true)
          end
      end
  | UpdateView =>
      obj ← get_object (model v) pk;
      match method request with
      | GET => render (template_of v "_form") (CtxModelForm (Some obj) false)
      | POST =>
          form ← get_form v request;
          match form with
          | Some r => objects_update pk r;; mret (HttpResponseRedirect (success_url v))
          | None => render (template_of v "_form") (CtxModelForm (Some obj) true)
          end
      end
  | DeleteView =>
      obj ← get_object (model v) pk;
      match method request with
      | GET => render (template_of v "_confirm_delete") (CtxModelForm (Some obj) false)
      | POST => objects_delete (model v) pk;; mret (HttpResponseRedirect (success_url v))
      end
  end.

(** [View.as_view()] of an editing view behind [PermissionRequiredMixin]. *)
Definition as_view (v : EditView) (request : Request) (pk : Z) : M Response :=
  PermissionRequiredMixin (perm_required v) request (edit v request pk).

Definition AuthorCreate : EditView :=
  {| model := MAuthor; generic := CreateView;
     perm_required := "catalog.can_create_author"; success_url := urls.reverse "authors" |}.
Definition AuthorUpdate : EditView :=
  {| model := MAuthor; generic := UpdateView;
     perm_required := "catalog.can_update_author"; success_url := urls.reverse "authors" |}.
Definition AuthorDelete : EditView :=
  {| model := MAuthor; generic := DeleteView;
     perm_required := "catalog.can_delete_author"; success_url := urls.reverse "authors" |}.

Definition BookCreate : EditView :=
  {| model := MBook; generic := CreateView;
     perm_required := "catalog.can_create_book"; success_url := urls.reverse "books" |}.
Definition BookUpdate : EditView :=
  {| model := MBook; generic := UpdateView;
     perm_required := "catalog.can_update_book"; success_url := urls.reverse "books" |}.
Definition BookDelete : EditView :=
  {| model := MBook; generic := DeleteView;
     perm_required := "catalog.can_delete_book"; success_url := urls.reverse "books" |}.

Definition BookInstanceCreate : EditView :=
  {| model := MBookInstance; generic := CreateView;
     perm_required := "catalog.can_create_bookinstance";
     success_url := urls.reverse "all-bookinstances" |}.
Definition BookInstanceUpdate : EditView :=
  {| model := MBookInstance; generic := UpdateView;
     perm_required := "catalog.can_update_bookinstance";
     success_url := urls.reverse "all-bookinstances" |}.
Definition BookInstanceDelete : EditView :=
  {| model := MBookInstance; generic := DeleteView;
     perm_required := "catalog.can_delete_bookinstance";
     success_url := urls.reverse "all-bookinstances" |}.

Definition GenreCreate : EditView :=
  {| model := MGenre; generic := CreateView;
     perm_required := "catalog.can_create_genre"; success_url := urls.reverse "genres" |}.
Definition GenreUpdate : EditView :=
  {| model := MGenre; generic := UpdateView;
     perm_required := "catalog.can_update_genre"; success_url := urls.reverse "genres" |}.
Definition GenreDelete : EditView :=
  {| model := MGenre; generic := DeleteView;
     perm_required := "catalog.can_delete_genre"; success_url := urls.reverse "genres" |}.

Definition LanguageCreate : EditView :=
  {| model := MLanguage; generic := CreateView;
     perm_required := "catalog.can_create_language"; success_url := urls.reverse "languages" |}.
Definition LanguageUpdate : EditView :=
  {| model := MLanguage; generic := UpdateView;
     perm_required := "catalog.can_update_language"; success_url := urls.reverse "languages" |}.
Definition LanguageDelete : EditView :=
  {| model := MLanguage; generic := DeleteView;
     perm_required := "catalog.can_delete_language"; success_url := urls.reverse "languages" |}.

Definition edit_views : list EditView :=
  [ AuthorCreate; AuthorUpdate; AuthorDelete;
    BookCreate; BookUpdate; BookDelete;
    BookInstanceCreate; BookInstanceUpdate; BookInstanceDelete;
    GenreCreate; GenreUpdate; GenreDelete;
    LanguageCreate; LanguageUpdate; LanguageDelete ].

(** ** The gated operations *)

Inductive Gated :=
| Mutation (v : EditView) (pk : Z)
| Renewal (pk : Z)
| AllInstances.

Definition capability (op : Gated) : string :=
  match op with
  | Mutation v _ => perm_required v
  | Renewal _ => "catalog.can_mark_returned"
  | AllInstances => "catalog.can_mark_returned"
  end.

Definition dispatch (env : Env) (op : Gated) (request : Request) : M Response :=
  match op with
  | Mutation v pk => as_view v request pk
  | Renewal pk => renew_book_librarian env request pk
  | AllInstances => BookinstancesAllListView request
  end.

(** * The rest of models.py and views.py *)

(** [self.genre.all()] on a [Book]: the genres linked to it, in the order of
    [Genre.Meta.ordering = ['name']].  How two names compare is the business
    of the column's collation, [collate]. *)
Definition Book_genre_all (collate : string → string → bool) (s : Store)
    (self : Book.t) : list Genre.t :=
  merge_sort (sorted_by (λ g1 g2, collate (Genre.name g1) (Genre.name g2)))
    (map_to_list (filter (λ kv : Z * Genre.t, kv.1 ∈ Book.genre self) (genres s))).*2.

(** [Book.display_genre]:
    [', '.join([genre.name for genre in self.genre.all()[:3]])]. *)
Definition Book_display_genre (collate : string → string → bool) (s : Store)
    (self : Book.t) : string :=
  String.concat ", " (Genre.name <$> take 3 (Book_genre_all collate s self)).

(** ** The detail views *)

(** [BookDetailView], [AuthorDetailView], [GenreDetailView] and
    [LanguageDetailView]: the object of the page, behind [LoginRequiredMixin]. *)
Definition DetailView (m : Model) (request : Request) (pk : Z) : M Row :=
  if is_authenticated (user request) then get_object m pk
  else abort (handle_no_permission request).

Definition GenreDetailView : Request → Z → M Row := DetailView MGenre.
Definition LanguageDetailView : Request → Z → M Row := DetailView MLanguage.

(** Every foreign key and every many-to-many link of the store points at a
    stored row. *)
Definition linked (s : Store) : Prop :=
  map_Forall (λ _ b,
    (∀ a, Book.author b = Some a → is_Some (authors s !! a)) ∧
    (∀ l, Book.language b = Some l → is_Some (languages s !! l)) ∧
    (∀ g, g ∈ Book.genre b → is_Some (genres s !! g))) (books s) ∧
  map_Forall (λ _ i,
    ∀ b, BookInstance.book i = Some b → is_Some (books s !! b)) (bookinstances s).

(** * Specification vocabulary *)

(** [n] is the number of rows of [table] that satisfy [P]: the size of the
    set of their primary keys. *)
Definition counts {R : Type} (table : gmap Z R) (P : R → Prop) (n : nat) : Prop :=
  ∃ keys : gset Z,
    size keys = n ∧ ∀ k, k ∈ keys ↔ ∃ r, table !! k = Some r ∧ P r.

(** [u] and [l] are the capital and the small form of one of the 26 letters
    A to Z: the characters 65 + n and 97 + n. *)
Definition letter_cases (u l : ascii) : Prop :=
  ∃ n : nat, (n < 26)%nat ∧ u = ascii_of_nat (65 + n) ∧ l = ascii_of_nat (97 + n).

(** [c] and [d] are the same character up to the case of a letter. *)
Definition same_letter (c d : ascii) : Prop :=
  c = d ∨ letter_cases c d ∨ letter_cases d c.

(** Two texts are equal up to the case of their letters. *)
Inductive equal_ci : string → string → Prop :=
| equal_ci_empty : equal_ci EmptyString EmptyString
| equal_ci_char (c d : ascii) (s t : string) :
    same_letter c d → equal_ci s t → equal_ci (String c s) (String d t).

(** [s] contains [pat] up to the case of letters. *)
Definition contains_ci (pat s : string) : Prop :=
  ∃ pre mid suf, s = pre +:+ mid +:+ suf ∧ equal_ci mid pat.

(** The texts that the home page matches: the two patterns, the names of the
    stored genres and the titles of the stored books. *)
Definition home_page_text (s : Store) (t : string) : Prop :=
  t = "fantasy" ∨ t = "thrones" ∨
  (∃ k g, genres s !! k = Some g ∧ Genre.name g = t) ∨
  (∃ k b, books s !! k = Some b ∧ Book.title b = t).

(** The backend folds the texts at hand as the folding of the ASCII letters
    to their small or to their capital form does.  [LIKE] on SQLite does so
    for every text, [UPPER] on PostgreSQL and Oracle for the texts that are
    ASCII. *)
Definition folds_ascii_letters (fold : string → string) (texts : string → Prop) : Prop :=
  (∀ t, texts t → fold t = Str.lower t) ∨ (∀ t, texts t → fold t = Str.upper t).

(** [n] home-page views in a row by the same caller. *)
Fixpoint home_views (env : Env) (n : nat) (request : Request) (w : World)
    : list Response * World :=
  match n with
  | O => ([], w)
  | S n' =>
      let '(r, w1) := respond (index env request) w in
      let '(rs, w2) := home_views env n' request w1 in
      (r :: rs, w2)
  end.

Definition visits_shown (r : Response) : option Z :=
  match r with
  | HttpResponse _ (CtxIndex c) => Some (num_visits c)
  | _ => None
  end.

(** A listing is in ascending order of [due_back] with the NULLs last. *)
Definition due_back_nulls_last (l : list BookInstance.t) : Prop :=
  ∀ i j x y, (i < j)%nat → l !! i = Some x → l !! j = Some y →
    match BookInstance.due_back x, BookInstance.due_back y with
    | Some dx, Some dy => (dx ≤ dy)%Z
    | Some _, None => True
    | None, Some _ => False
    | None, None => True
    end.

(** Every row is stored under its primary key. *)
Definition keyed (s : Store) : Prop :=
  map_Forall (λ k r, Genre.id r = k) (genres s) ∧
  map_Forall (λ k r, Language.id r = k) (languages s) ∧
  map_Forall (λ k r, Author.id r = k) (authors s) ∧
  map_Forall (λ k r, Book.id r = k) (books s) ∧
  map_Forall (λ k r, BookInstance.id r = k) (bookinstances s).

(** * Sample data *)

Module sample.

Local Open Scope Z_scope.

Definition martin : Author.t :=
  {| Author.id := 1; Author.first_name := "George"; Author.last_name := "Martin";
     Author.date_of_birth := Some 711757%Z; Author.date_of_death := None |}.

Definition english : Language.t := {| Language.id := 1; Language.name := "English" |}.

Definition epic_fantasy : Genre.t := {| Genre.id := 1; Genre.name := "Epic Fantasy" |}.

Definition thrones : Book.t :=
  {| Book.id := 1; Book.title := "A Game of Thrones"; Book.author := Some 1%Z;
     Book.summary := ""; Book.isbn := "9780553103540"; Book.genre := {[ 1%Z ]};
     Book.language := Some 1%Z |}.

(** On loan to user 7, with no due date. *)
Definition copy1 : BookInstance.t :=
  {| BookInstance.id := 1; BookInstance.book := Some 1%Z;
     BookInstance.imprint := "Bantam, 1996"; BookInstance.due_back := None;
     BookInstance.borrower := Some 7%Z; BookInstance.status := "o" |}.

(** On loan to user 7, due on day 738110. *)
Definition copy2 : BookInstance.t :=
  {| BookInstance.id := 2; BookInstance.book := Some 1%Z;
     BookInstance.imprint := "Bantam, 1996"; BookInstance.due_back := Some 738110%Z;
     BookInstance.borrower := Some 7%Z; BookInstance.status := "o" |}.

(** Available, and detached from its book. *)
Definition copy3 : BookInstance.t :=
  {| BookInstance.id := 3; BookInstance.book := None;
     BookInstance.imprint := "Voyager, 1998"; BookInstance.due_back := None;
     BookInstance.borrower := None; BookInstance.status := "a" |}.

Definition store : Store :=
  {| genres := {[ 1%Z := epic_fantasy ]};
     languages := {[ 1%Z := english ]};
     authors := {[ 1%Z := martin ]};
     books := {[ 1%Z := thrones ]};
     bookinstances := {[ 1%Z := copy1; 2%Z := copy2; 3%Z := copy3 ]} |}.

Definition a_world (s : Store) : World :=
  {| db := s; session := ∅; queries := []; users := {[ 5; 6; 7 ]};
     sequence := λ _, 1 |}.

Definition world : World := a_world store.

Definition librarian : User :=
  {| user_id := 5; is_authenticated := true; is_active := true; is_superuser := false;
     user_permissions := {[ "catalog.can_mark_returned" ]} |}.

Definition member : User :=
  {| user_id := 7; is_authenticated := true; is_active := true; is_superuser := false;
     user_permissions := ∅ |}.

Definition get (u : User) : Request :=
  {| user := u; method := GET; POST_renewal_date := None; POST_row := None;
     GET_page := PageAbsent |}.

Definition get_page (u : User) (n : Z) : Request :=
  {| user := u; method := GET; POST_renewal_date := None; POST_row := None;
     GET_page := PageNumber n |}.

Definition post_renewal (u : User) (d : date) : Request :=
  {| user := u; method := POST; POST_renewal_date := Some d; POST_row := None;
     GET_page := PageAbsent |}.

(** [UPPER] as PostgreSQL computes it, for the texts made of ASCII
    characters and of the long s (U+017F, the bytes 197 191), whose capital
    is S. *)
Fixpoint pg_upper (s : string) : string :=
  match s with
  | EmptyString => EmptyString
  | String c s' =>
      match s' with
      | String d s'' =>
          if (nat_of_ascii c =? 197)%nat && (nat_of_ascii d =? 191)%nat
          then String "S" (pg_upper s'')
          else String (Str.upper_ascii c) (pg_upper s')
      | EmptyString => String (Str.upper_ascii c) EmptyString
      end
  end.

Definition sqlite : Env :=
  {| today := 738100; nulls_first_by_default := true; like_fold := Str.lower |}.

Definition postgresql : Env :=
  {| today := 738100; nulls_first_by_default := false; like_fold := pg_upper |}.

(** The store of the summary example: 3 books, 5 instances of which 2 are
    available, 4 authors, the genre "Epic Fantasy", no title with "thrones". *)
Definition a_book (k : Z) (title : string) : Book.t :=
  {| Book.id := k; Book.title := title; Book.author := None; Book.summary := "";
     Book.isbn := ""; Book.genre := ∅; Book.language := None |}.

Definition a_copy (k : Z) (status : string) : BookInstance.t :=
  {| BookInstance.id := k; BookInstance.book := None; BookInstance.imprint := "x";
     BookInstance.due_back := None; BookInstance.borrower := None;
     BookInstance.status := status |}.

Definition an_author (k : Z) : Author.t :=
  {| Author.id := k; Author.first_name := "A"; Author.last_name := "B";
     Author.date_of_birth := None; Author.date_of_death := None |}.

Definition summary_store : Store :=
  {| genres := {[ 1 := epic_fantasy ]};
     languages := ∅;
     authors := {[ 1 := an_author 1; 2 := an_author 2; 3 := an_author 3;
                   4 := an_author 4 ]};
     books := {[ 1 := a_book 1 "Dune"; 2 := a_book 2 "Emma"; 3 := a_book 3 "Ulysses" ]};
     bookinstances := {[ 1 := a_copy 1 "a"; 2 := a_copy 2 "a"; 3 := a_copy 3 "o";
                         4 := a_copy 4 "m"; 5 := a_copy 5 "r" ]} |}.

End sample.

Module sample_more.

Local Open Scope Z_scope.

Definition anonymous : User :=
  {| user_id := 0; is_authenticated := false; is_active := false; is_superuser := false;
     user_permissions := ∅ |}.

Definition archivist : User :=
  {| user_id := 6; is_authenticated := true; is_active := true; is_superuser := false;
     user_permissions := {[ "catalog.can_delete_author" ]} |}.

Definition post (u : User) : Request :=
  {| user := u; method := POST; POST_renewal_date := None; POST_row := None;
     GET_page := PageAbsent |}.

(** A store whose one genre is spelt with the long s. *)
Definition long_s_store : Store :=
  {| genres := {[ 1 := {| Genre.id := 1; Genre.name := "Fantaſy" |} ]};
     languages := ∅; authors := ∅; books := ∅; bookinstances := ∅ |}.

(** Twelve copies on loan to user 7, due on the days 738101 to 738112. *)
Definition loan (k : Z) : BookInstance.t :=
  {| BookInstance.id := k; BookInstance.book := None; BookInstance.imprint := "x";
     BookInstance.due_back := Some (738100 + k); BookInstance.borrower := Some 7;
     BookInstance.status := "o" |}.

Definition twelve_loans : Store :=
  {| genres := ∅; languages := ∅; authors := ∅; books := ∅;
     bookinstances :=
       list_to_map ((λ k, (k, loan k)) <$> [1; 2; 3; 4; 5; 6; 7; 8; 9; 10; 11; 12]) |}.

(** A book linked to five genres, of which four are stored. *)
Definition anthology : Book.t :=
  {| Book.id := 2; Book.title := "Anthology"; Book.author := None; Book.summary := "";
     Book.isbn := ""; Book.genre := {[ 1; 2; 3; 4; 9 ]}; Book.language := None |}.

Definition genre_store : Store :=
  {| genres := {[ 1 := {| Genre.id := 1; Genre.name := "Epic Fantasy" |};
                  2 := {| Genre.id := 2; Genre.name := "Crime" |};
                  3 := {| Genre.id := 3; Genre.name := "Western" |};
                  4 := {| Genre.id := 4; Genre.name := "Poetry" |};
                  5 := {| Genre.id := 5; Genre.name := "Drama" |} ]};
     languages := ∅; authors := ∅; books := {[ 2 := anthology ]};
     bookinstances := ∅ |}.

Definition editor : User :=
  {| user_id := 5; is_authenticated := true; is_active := true; is_superuser := true;
     user_permissions := ∅ |}.

Definition post_row (u : User) (r : Row) : Request :=
  {| user := u; method := POST; POST_renewal_date := None; POST_row := Some r;
     GET_page := PageAbsent |}.

(** Copy 2 as posted to its update form with the id changed to 5. *)
Definition copy2_as_5 : BookInstance.t :=
  {| BookInstance.id := 5; BookInstance.book := Some 1;
     BookInstance.imprint := "Bantam, 1996"; BookInstance.due_back := Some 738110;
     BookInstance.borrower := Some 7; BookInstance.status := "o" |}.

(** Copy 3 as posted with a borrower who is no user. *)
Definition copy3_lent_to_nobody : BookInstance.t :=
  {| BookInstance.id := 3; BookInstance.book := Some 1;
     BookInstance.imprint := "Voyager, 1998"; BookInstance.due_back := None;
     BookInstance.borrower := Some 99; BookInstance.status := "a" |}.

Definition tolkien : Author.t :=
  {| Author.id := 0; Author.first_name := "John"; Author.last_name := "Tolkien";
     Author.date_of_birth := None; Author.date_of_death := None |}.

(** A listing of 25 objects. *)
Definition listing25 : list nat := seq 0 25.

End sample_more.

(** * Properties *)

Section Models.

(** C4: [is_overdue] holds exactly when [due_back] is set and strictly
    before today; it is false when [due_back] is NULL and when it is today
    or later. *)
Theorem is_overdue_spec (today : date) (i : BookInstance.t) :
  (BookInstance.is_overdue today i = true ↔
     ∃ d, BookInstance.due_back i = Some d ∧ (d < today)%Z) ∧
  (BookInstance.due_back i = None → BookInstance.is_overdue today i = false) ∧
  (∀ d, BookInstance.due_back i = Some d → (today ≤ d)%Z →
     BookInstance.is_overdue today i = false).
Proof.
  unfold BookInstance.is_overdue.
  destruct (BookInstance.due_back i) as [d|] eqn:Hd.
  - destruct (Z.gtb_spec today d) as [Hlt|Hge].
    + split; [|split].
      * split; [intros _; exists d; split; [done|lia] | done].
      * done.
      * intros d' [= <-] ?. lia.
    + split; [|split].
      * split; [done | intros (d' & [= <-] & ?); lia].
      * done.
      * done.
  - split; [|split]; try done.
    split; [done | intros (d & ? & _); done].
Qed.

Lemma lookup_SET_NULL {R : Type} (fk : R → option Z) (set_fk : option Z → R → R)
    (pk k : Z) (rows : gmap Z R) (r : R) :
  rows !! k = Some r →
  SET_NULL fk set_fk pk rows !! k =
    Some (if bool_decide (fk r = Some pk) then set_fk None r else r).
Proof. intros H. unfold SET_NULL. by rewrite lookup_fmap, H. Qed.

(** C3: deleting an [Author] keeps every [Book] that referenced it, and the
    book then reads [author = None]; likewise for a [Language]. *)
Theorem delete_sets_null (s : Store) (pk b : Z) (bk : Book.t) :
  books s !! b = Some bk →
  (Book.author bk = Some pk →
     authors (delete_author pk s) !! pk = None ∧
     books (delete_author pk s) !! b = Some (Book.set_author None bk) ∧
     Book.author (Book.set_author None bk) = None) ∧
  (Book.language bk = Some pk →
     languages (delete_language pk s) !! pk = None ∧
     books (delete_language pk s) !! b = Some (Book.set_language None bk) ∧
     Book.language (Book.set_language None bk) = None).
Proof.
  intros Hb. split; intros Hfk.
  - split; [apply lookup_delete_eq|]. split; [|done].
    cbn. rewrite (lookup_SET_NULL _ _ _ _ _ _ Hb).
    by rewrite bool_decide_eq_true_2.
  - split; [apply lookup_delete_eq|]. split; [|done].
    cbn. rewrite (lookup_SET_NULL _ _ _ _ _ _ Hb).
    by rewrite bool_decide_eq_true_2.
Qed.

End Models.

Section Renewal.

Variable env : Env.

Lemma forms_bound_valid (d : date) :
  (today env ≤ d)%Z → (d ≤ today env + 28)%Z →
  forms.bound (today env) (Some d) =
    {| forms.is_bound := true; forms.initial := None;
       forms.cleaned_data := Some d; forms.errors := [] |}.
Proof.
  intros Hlo Hhi. unfold forms.bound, timedelta_weeks.
  destruct (Z.ltb_spec d (today env)); [lia|].
  destruct (Z.gtb_spec d (today env + 7 * 4)); [lia|]. done.
Qed.

Lemma forms_bound_invalid (d : date) :
  (d < today env ∨ today env + 28 < d)%Z →
  forms.is_valid (forms.bound (today env) (Some d)) = false ∧
  forms.errors (forms.bound (today env) (Some d)) ≠ [].
Proof.
  intros Hout. unfold forms.bound, timedelta_weeks.
  destruct (Z.ltb_spec d (today env)); [done|].
  destruct (Z.gtb_spec d (today env + 7 * 4)); [done|lia].
Qed.

(** C1: a renewal posted by a librarian for an existing instance is refused
    with a validation error, the store untouched, when the date is before
    today or more than 28 days after today; otherwise [due_back] becomes the
    posted date in the stored row. *)
Theorem renew_validates (request : Request) (pk : Z) (w : World)
    (inst : BookInstance.t) (d : date) :
  has_perm (user request) "catalog.can_mark_returned" = true →
  method request = POST →
  POST_renewal_date request = Some d →
  bookinstances (db w) !! pk = Some inst →
  BookInstance.id inst = pk →
  ((d < today env ∨ today env + 28 < d)%Z →
     ∃ form w',
       respond (renew_book_librarian env request pk) w =
         (HttpResponse "catalog/book_renew_librarian.html" (CtxRenew form inst), w') ∧
       forms.errors form ≠ [] ∧
       db w' = db w ∧
       BookInstance.due_back <$> bookinstances (db w') !! pk =
         Some (BookInstance.due_back inst)) ∧
  ((today env ≤ d ≤ today env + 28)%Z →
     ∃ w',
       respond (renew_book_librarian env request pk) w =
         (HttpResponseRedirect (urls.reverse "all-bookinstances"), w') ∧
       BookInstance.due_back <$> bookinstances (db w') !! pk = Some (Some d)).
Proof.
  intros Hperm Hpost Hdate Hget Hid.
  unfold renew_book_librarian, permission_required, respond.
  rewrite Hperm, Hpost, Hdate.
  unfold mbind, M_bind, get_object_or_404. rewrite Hget.
  split.
  - intros Hout. destruct (forms_bound_invalid d Hout) as [Hinv Herr].
    rewrite Hinv. cbn.
    eexists _, _. split; [reflexivity|].
    split; [exact Herr|]. split; [done|]. cbn. by rewrite Hget.
  - intros [Hlo Hhi]. rewrite (forms_bound_valid d Hlo Hhi). cbn.
    eexists. split; [reflexivity|].
    cbn. rewrite Hid. by rewrite lookup_insert_eq.
Qed.

(** C2: a successful renewal leaves [id], [book], [imprint], [borrower] and
    [status] of the instance as they were, and touches no other row. *)
Theorem renew_frame (request : Request) (pk : Z) (w w' : World)
    (inst : BookInstance.t) :
  bookinstances (db w) !! pk = Some inst →
  BookInstance.id inst = pk →
  respond (renew_book_librarian env request pk) w =
    (HttpResponseRedirect (urls.reverse "all-bookinstances"), w') →
  (∃ inst',
     bookinstances (db w') !! pk = Some inst' ∧
     BookInstance.id inst' = BookInstance.id inst ∧
     BookInstance.status inst' = BookInstance.status inst ∧
     BookInstance.book inst' = BookInstance.book inst ∧
     BookInstance.imprint inst' = BookInstance.imprint inst ∧
     BookInstance.borrower inst' = BookInstance.borrower inst) ∧
  (∀ k, k ≠ pk → bookinstances (db w') !! k = bookinstances (db w) !! k) ∧
  genres (db w') = genres (db w) ∧
  languages (db w') = languages (db w) ∧
  authors (db w') = authors (db w) ∧
  books (db w') = books (db w).
Proof.
  intros Hget Hid.
  unfold renew_book_librarian, permission_required, respond.
  destruct (has_perm _ _); [|done].
  unfold mbind, M_bind, get_object_or_404. rewrite Hget.
  destruct (method request); [done|].
  destruct (forms.is_valid _); cbn; [|done].
  intros [= <-]. cbn. rewrite Hid.
  split; [|split; [|done]].
  - eexists. split; [apply lookup_insert_eq|]. done.
  - intros k Hk. by rewrite lookup_insert_ne.
Qed.

End Renewal.

Section AccessPolicy.

Lemma handle_no_permission_forbidden (request : Request) :
  is_forbidden (handle_no_permission request) = true.
Proof. unfold handle_no_permission. by destruct (is_authenticated _). Qed.

Lemma PermissionRequiredMixin_refuses (perm : string) (request : Request)
    (view : M Response) (w : World) :
  has_perm (user request) perm = false →
  respond (PermissionRequiredMixin perm request view) w =
    (handle_no_permission request, w).
Proof. intros H. unfold PermissionRequiredMixin. by rewrite H. Qed.

Lemma permission_required_refuses (perm : string) (request : Request)
    (view : M Response) (w : World) :
  has_perm (user request) perm = false →
  respond (permission_required perm request view) w = (RedirectToLogin, w).
Proof. intros H. unfold permission_required. by rewrite H. Qed.

(** C8: a gated operation invoked without its capability is refused with the
    Forbidden signal; the world it leaves (store, session and the list of
    queries issued) is the one it found, and the response is the same
    whatever the store holds.  In particular a refused renewal leaves
    [due_back] as it was. *)
Theorem gated_refuses (env : Env) (op : Gated) (request : Request) (w : World) :
  has_perm (user request) (capability op) = false →
  ∃ r,
    respond (dispatch env op request) w = (r, w) ∧
    is_forbidden r = true ∧
    (∀ w2, respond (dispatch env op request) w2 = (r, w2)) ∧
    (∀ pk, op = Renewal pk →
       BookInstance.due_back <$>
         bookinstances (db (respond (dispatch env op request) w).2) !! pk =
       BookInstance.due_back <$> bookinstances (db w) !! pk).
Proof.
  intros Hperm. destruct op as [v pk|pk|]; cbn in Hperm; cbn [dispatch].
  - exists (handle_no_permission request). unfold as_view.
    split; [by apply PermissionRequiredMixin_refuses|].
    split; [apply handle_no_permission_forbidden|].
    split; [intros w2; by apply PermissionRequiredMixin_refuses | done].
  - exists RedirectToLogin. unfold renew_book_librarian.
    split; [by apply permission_required_refuses|].
    split; [done|].
    split; [intros w2; by apply permission_required_refuses|].
    intros pk' _. by rewrite permission_required_refuses.
  - exists (handle_no_permission request). unfold BookinstancesAllListView.
    split; [by apply PermissionRequiredMixin_refuses|].
    split; [apply handle_no_permission_forbidden|].
    split; [intros w2; by apply PermissionRequiredMixin_refuses | done].
Qed.

End AccessPolicy.

Section Strings.

Lemma startswith_spec (p s : string) :
  Str.startswith p s = true ↔ ∃ suf, s = p +:+ suf.
Proof.
  revert s. induction p as [|a p IH]; intros s; cbn.
  - split; [intros _; by exists s | done].
  - destruct s as [|b s].
    + split; [done | intros (suf & ?); done].
    + rewrite andb_true_iff, IH. split.
      * intros [Hab (suf & ->)]. apply Ascii.eqb_eq in Hab as ->. by exists suf.
      * intros (suf & [= -> ->]). split; [apply Ascii.eqb_refl | by exists suf].
Qed.

Lemma contains_spec (needle hay : string) :
  Str.contains needle hay = true ↔ ∃ pre suf, hay = pre +:+ needle +:+ suf.
Proof.
  induction hay as [|c hay IH]; cbn [Str.contains];
    rewrite orb_true_iff, startswith_spec.
  - split.
    + intros [(suf & ->)|?]; [|done]. by exists EmptyString, suf.
    + intros (pre & suf & H). left.
      destruct pre; cbn in H; [by exists suf | done].
  - rewrite IH. split.
    + intros [(suf & ->)|(pre & suf & ->)].
      * by exists EmptyString, suf.
      * by exists (String c pre), suf.
    + intros (pre & suf & H). destruct pre as [|c' pre]; cbn in H.
      * left. by exists suf.
      * right. injection H as -> ->. by exists pre, suf.
Qed.

Lemma nat_of_ascii_inj (c d : ascii) : nat_of_ascii c = nat_of_ascii d → c = d.
Proof.
  intros H. rewrite <- (ascii_nat_embedding c), <- (ascii_nat_embedding d).
  by rewrite H.
Qed.

(** The two cases of a letter are 32 apart, the capitals from 65 to 90. *)
Lemma same_letter_codes (c d : ascii) :
  same_letter c d ↔
  nat_of_ascii c = nat_of_ascii d ∨
  ((65 ≤ nat_of_ascii c ≤ 90)%nat ∧ nat_of_ascii d = (nat_of_ascii c + 32)%nat) ∨
  ((65 ≤ nat_of_ascii d ≤ 90)%nat ∧ nat_of_ascii c = (nat_of_ascii d + 32)%nat).
Proof.
  assert (∀ u l, letter_cases u l ↔
            (65 ≤ nat_of_ascii u ≤ 90)%nat ∧ nat_of_ascii l = (nat_of_ascii u + 32)%nat)
    as Hcases.
  { intros u l. unfold letter_cases. split.
    - intros (n & Hn & -> & ->). rewrite !nat_ascii_embedding by lia. lia.
    - intros [Hu Hl]. exists (nat_of_ascii u - 65)%nat. split; [lia|]. split.
      + replace (65 + (nat_of_ascii u - 65))%nat with (nat_of_ascii u) by lia.
        by rewrite ascii_nat_embedding.
      + apply nat_of_ascii_inj. rewrite nat_ascii_embedding by lia. lia. }
  unfold same_letter. rewrite !Hcases. split.
  - intros [->|H]; [by left | by right].
  - intros [H|H]; [left; by apply nat_of_ascii_inj | by right].
Qed.

Lemma lower_ascii_same (c d : ascii) :
  Str.lower_ascii c = Str.lower_ascii d ↔ same_letter c d.
Proof.
  rewrite same_letter_codes. unfold Str.lower_ascii.
  pose proof (nat_ascii_bounded c). pose proof (nat_ascii_bounded d).
  destruct (Nat.leb_spec 65 (nat_of_ascii c)), (Nat.leb_spec (nat_of_ascii c) 90),
    (Nat.leb_spec 65 (nat_of_ascii d)), (Nat.leb_spec (nat_of_ascii d) 90);
    cbn [andb]; (split;
      [ intros Heq; apply (f_equal nat_of_ascii) in Heq;
        rewrite ?nat_ascii_embedding in Heq by lia; lia
      | intros Hcodes; apply nat_of_ascii_inj;
        rewrite ?nat_ascii_embedding by lia; lia ]).
Qed.

Lemma upper_ascii_same (c d : ascii) :
  Str.upper_ascii c = Str.upper_ascii d ↔ same_letter c d.
Proof.
  rewrite same_letter_codes. unfold Str.upper_ascii.
  pose proof (nat_ascii_bounded c). pose proof (nat_ascii_bounded d).
  destruct (Nat.leb_spec 97 (nat_of_ascii c)), (Nat.leb_spec (nat_of_ascii c) 122),
    (Nat.leb_spec 97 (nat_of_ascii d)), (Nat.leb_spec (nat_of_ascii d) 122);
    cbn [andb]; (split;
      [ intros Heq; apply (f_equal nat_of_ascii) in Heq;
        rewrite ?nat_ascii_embedding in Heq by lia; lia
      | intros Hcodes; apply nat_of_ascii_inj;
        rewrite ?nat_ascii_embedding by lia; lia ]).
Qed.

Section Folding.

(** A folding of texts, character by character, that identifies exactly the
    two cases of each letter. *)
Variable f : ascii → ascii.
Variable F : string → string.
Hypothesis F_empty : F EmptyString = EmptyString.
Hypothesis F_char : ∀ c s, F (String c s) = String (f c) (F s).
Hypothesis f_same : ∀ c d, f c = f d ↔ same_letter c d.

Lemma fold_app (a b : string) : F (a +:+ b) = F a +:+ F b.
Proof.
  induction a as [|c a IH]; [by rewrite F_empty|].
  change (String c a +:+ b) with (String c (a +:+ b)).
  rewrite !F_char, IH. done.
Qed.

Lemma fold_split (s a b : string) :
  F s = a +:+ b → ∃ s1 s2, s = s1 +:+ s2 ∧ F s1 = a ∧ F s2 = b.
Proof.
  revert s. induction a as [|c a IH]; intros s Hs.
  - exists EmptyString, s. by rewrite F_empty.
  - destruct s as [|c' s]; [by rewrite F_empty in Hs|].
    rewrite F_char in Hs. simpl in Hs. injection Hs as Hc Hs.
    destruct (IH s Hs) as (s1 & s2 & -> & H1 & H2).
    exists (String c' s1), s2. by rewrite F_char, Hc, H1.
Qed.

Lemma fold_equal_ci (a b : string) : F a = F b ↔ equal_ci a b.
Proof.
  split.
  - revert b. induction a as [|c a IH]; intros [|d b] H;
      rewrite ?F_empty, ?F_char in H; try done; [constructor|].
    injection H as Hc H. constructor; [by apply f_same | by apply IH].
  - induction 1 as [|c d s t Hcd _ IH]; [done|].
    rewrite !F_char, IH. f_equal. by apply f_same.
Qed.

Lemma fold_contains_ci (pat s : string) :
  Str.contains (F pat) (F s) = true ↔ contains_ci pat s.
Proof.
  unfold contains_ci. rewrite contains_spec. split.
  - intros (pre & suf & H).
    apply fold_split in H as (s1 & s2 & -> & _ & H).
    apply fold_split in H as (mid & s3 & -> & Hmid & _).
    exists s1, mid, s3. split; [done|]. by apply fold_equal_ci.
  - intros (pre & mid & suf & -> & Hmid).
    exists (F pre), (F suf). apply fold_equal_ci in Hmid.
    by rewrite !fold_app, Hmid.
Qed.

End Folding.

(** The [__icontains] lookup decides containment up to case on a backend
    that folds the texts at hand as ASCII case folding does. *)
Lemma icontains_spec (fold : string → string) (texts : string → Prop)
    (pat s : string) :
  folds_ascii_letters fold texts → texts pat → texts s →
  Str.icontains fold pat s = true ↔ contains_ci pat s.
Proof.
  intros [Hfold|Hfold] Hpat Hs; unfold Str.icontains; rewrite !Hfold by done.
  - by apply (fold_contains_ci Str.lower_ascii Str.lower), lower_ascii_same.
  - by apply (fold_contains_ci Str.upper_ascii Str.upper), upper_ascii_same.
Qed.

End Strings.

Section Counting.

Context {R : Type}.

Lemma filter_length_Permutation (p : R → bool) (l l' : list R) :
  l ≡ₚ l' → List.length (List.filter p l) = List.length (List.filter p l').
Proof.
  induction 1 as [|x l l' _ IH|x y l|l l' l'' _ IH1 _ IH2]; cbn.
  - done.
  - destruct (p x); cbn; by rewrite IH.
  - by destruct (p x), (p y).
  - by rewrite IH1.
Qed.

Lemma filter_rows_size (p : R → bool) (table : gmap Z R) :
  List.length (List.filter p (map_to_list table).*2) =
  size (filter (λ kv : Z * R, p kv.2 = true) table).
Proof.
  induction table as [|k r table Hk _ IH] using map_first_key_ind.
  - by rewrite map_to_list_empty, map_filter_empty, map_size_empty.
  - rewrite (filter_length_Permutation p _ (r :: (map_to_list table).*2)).
    2:{ rewrite map_to_list_insert by done. done. }
    cbn [List.filter]. destruct (p r) eqn:Hp.
    + rewrite map_filter_insert_True by done.
      rewrite map_size_insert_None; [cbn; by rewrite IH|].
      by apply map_lookup_filter_None_2; left.
    + rewrite map_filter_insert_False by (cbn; congruence).
      by rewrite delete_id.
Qed.

(** Counting the rows of a filtered query set counts the rows of the table
    that satisfy the condition. *)
Lemma filter_counts (p : R → bool) (P : R → Prop) (table : gmap Z R) :
  (∀ r, p r = true ↔ P r) →
  counts table P (List.length (List.filter p (map_to_list table).*2)).
Proof.
  intros Hp. exists (dom (filter (λ kv : Z * R, p kv.2 = true) table)).
  split; [by rewrite size_dom, filter_rows_size|].
  intros k. rewrite elem_of_dom. unfold is_Some.
  setoid_rewrite map_lookup_filter_Some. cbn.
  split; intros (r & Hr & Hpr); exists r; split; try done; by apply Hp.
Qed.

(** The same when the filter decides the condition on the stored rows. *)
Lemma filter_counts_stored (p : R → bool) (P : R → Prop) (table : gmap Z R) :
  (∀ k r, table !! k = Some r → p r = true ↔ P r) →
  counts table P (List.length (List.filter p (map_to_list table).*2)).
Proof.
  intros Hp. exists (dom (filter (λ kv : Z * R, p kv.2 = true) table)).
  split; [by rewrite size_dom, filter_rows_size|].
  intros k. rewrite elem_of_dom. unfold is_Some.
  setoid_rewrite map_lookup_filter_Some. cbn.
  split; intros (r & Hr & Hpr); exists r; (split; [done|]); by apply (Hp k r Hr).
Qed.

Lemma all_counts (table : gmap Z R) :
  counts table (λ _, True) (List.length (map_to_list table).*2).
Proof.
  exists (dom table). split.
  - by rewrite size_dom, length_fmap, length_map_to_list.
  - intros k. rewrite elem_of_dom. unfold is_Some.
    split; [intros (r & Hr); by exists r | intros (r & Hr & _); by exists r].
Qed.

(** A table has one count of matching rows. *)
Lemma counts_unique (table : gmap Z R) (P : R → Prop) (n m : nat) :
  counts table P n → counts table P m → n = m.
Proof.
  intros (X & <- & HX) (Y & <- & HY). f_equal. apply set_eq.
  intros k. by rewrite HX, HY.
Qed.

End Counting.

Section HomePage.

Variable env : Env.

(** What one run of [index] returns and leaves behind, for a caller who is
    logged in. *)
Lemma index_run (request : Request) (w : World) :
  is_authenticated (user request) = true →
  ∃ c w',
    respond (index env request) w = (HttpResponse "index.html" (CtxIndex c), w') ∧
    db w' = db w ∧
    session w' = <["num_visits" := (num_visits c + 1)%Z]> (session w) ∧
    num_visits c = default 0%Z (session w !! "num_visits") ∧
    num_books c = List.length (map_to_list (books (db w))).*2 ∧
    num_instances c = List.length (map_to_list (bookinstances (db w))).*2 ∧
    num_instances_available c =
      List.length (List.filter (status__exact "a")
                     (map_to_list (bookinstances (db w))).*2) ∧
    num_authors c = List.length (map_to_list (authors (db w))).*2 ∧
    num_fantasy_genres c =
      List.length (List.filter (name__icontains env "fantasy")
                     (map_to_list (genres (db w))).*2) ∧
    num_thrones_books c =
      List.length (List.filter (title__icontains env "thrones")
                     (map_to_list (books (db w))).*2).
Proof.
  intros Hauth. unfold index, login_required, respond. rewrite Hauth.
  eexists _, _. split; [reflexivity|]. cbn. done.
Qed.

(** C6, as amended: on a backend that folds the two patterns, the stored
    genre names and the stored book titles as ASCII case folding does, the
    home page shows the number of books, of instances, of available
    instances, of authors, of genres whose name contains "fantasy" and of
    books whose title contains "thrones", both up to the case of letters,
    each counted over the store as it is when the page is requested. *)
Theorem index_counts (request : Request) (w : World) :
  is_authenticated (user request) = true →
  folds_ascii_letters (like_fold env) (home_page_text (db w)) →
  ∃ c w',
    respond (index env request) w = (HttpResponse "index.html" (CtxIndex c), w') ∧
    db w' = db w ∧
    counts (books (db w)) (λ _, True) (num_books c) ∧
    counts (bookinstances (db w)) (λ _, True) (num_instances c) ∧
    counts (bookinstances (db w)) (λ i, BookInstance.status i = "a")
      (num_instances_available c) ∧
    counts (authors (db w)) (λ _, True) (num_authors c) ∧
    counts (genres (db w)) (λ g, contains_ci "fantasy" (Genre.name g))
      (num_fantasy_genres c) ∧
    counts (books (db w)) (λ b, contains_ci "thrones" (Book.title b))
      (num_thrones_books c).
Proof.
  intros Hauth Hfold.
  destruct (index_run request w Hauth)
    as (c & w' & Hrun & Hdb & _ & _ & H1 & H2 & H3 & H4 & H5 & H6).
  exists c, w'. split; [done|]. split; [done|].
  rewrite H1, H2, H3, H4, H5, H6.
  repeat split; try apply all_counts.
  - apply filter_counts. intros r. unfold status__exact. apply String.eqb_eq.
  - apply filter_counts_stored. intros k g Hg.
    apply (icontains_spec _ _ _ _ Hfold); unfold home_page_text; [tauto|].
    right; right; left. by exists k, g.
  - apply filter_counts_stored. intros k b Hb.
    apply (icontains_spec _ _ _ _ Hfold); unfold home_page_text; [tauto|].
    right; right; right. by exists k, b.
Qed.

Lemma home_views_from (request : Request) (n : nat) :
  is_authenticated (user request) = true →
  ∀ w v, default 0%Z (session w !! "num_visits") = v →
  visits_shown <$> (home_views env n request w).1 =
    (λ i, Some (v + Z.of_nat i)%Z) <$> seq 0 n.
Proof.
  intros Hauth. induction n as [|n IH]; intros w v Hv; [done|].
  cbn [home_views].
  destruct (index_run request w Hauth)
    as (c & w1 & Hrun & _ & Hses & Hc & _).
  rewrite Hrun.
  destruct (home_views env n request w1) as [rs w2] eqn:Hrest.
  cbn [fst fmap list_fmap seq visits_shown].
  f_equal; [f_equal; lia|].
  change rs with (rs, w2).1. rewrite <- Hrest.
  rewrite (IH w1 (v + 1)%Z).
  - rewrite <- fmap_S_seq, <- list_fmap_compose.
    apply list_fmap_ext. intros _ i _. cbn. f_equal. lia.
  - rewrite Hses, lookup_insert_eq. cbn. lia.
Qed.

(** C7: one home-page view shows the visit counter that the session held
    (0 when it held none) and leaves the counter one higher; [n] views in a
    row in a session without a counter show 0, 1, ..., n-1. *)
Theorem index_num_visits (request : Request) (w : World) :
  is_authenticated (user request) = true →
  (∃ c w',
     respond (index env request) w = (HttpResponse "index.html" (CtxIndex c), w') ∧
     num_visits c = default 0%Z (session w !! "num_visits") ∧
     session w' !! "num_visits" = Some (num_visits c + 1)%Z) ∧
  (session w !! "num_visits" = None →
   ∀ n, visits_shown <$> (home_views env n request w).1 =
        (λ i, Some (Z.of_nat i)) <$> seq 0 n).
Proof.
  intros Hauth. split.
  - destruct (index_run request w Hauth) as (c & w' & Hrun & _ & Hses & Hc & _).
    exists c, w'. split; [done|]. split; [done|].
    by rewrite Hses, lookup_insert_eq.
  - intros Hfresh n. rewrite (home_views_from request n Hauth w 0%Z).
    + done.
    + by rewrite Hfresh.
Qed.

End HomePage.

Section Listings.

Lemma asc_nulls_last_total (a b : option date) :
  asc_nulls_last a b = true ∨ asc_nulls_last b a = true.
Proof. destruct a, b; cbn; auto. rewrite !Z.leb_le. lia. Qed.

Lemma asc_nulls_first_total (a b : option date) :
  asc_nulls_first a b = true ∨ asc_nulls_first b a = true.
Proof. destruct a, b; cbn; auto. rewrite !Z.leb_le. lia. Qed.

Lemma asc_nulls_last_trans (a b c : option date) :
  asc_nulls_last a b = true → asc_nulls_last b c = true → asc_nulls_last a c = true.
Proof. destruct a, b, c; cbn; auto; try done. rewrite !Z.leb_le. lia. Qed.

Lemma asc_nulls_first_trans (a b c : option date) :
  asc_nulls_first a b = true → asc_nulls_first b c = true → asc_nulls_first a c = true.
Proof. destruct a, b, c; cbn; auto; try done. rewrite !Z.leb_le. lia. Qed.

#[local] Instance by_due_back_total (env : Env) : Total (sorted_by (by_due_back env)).
Proof.
  intros x y. unfold sorted_by, by_due_back. rewrite !Is_true_true.
  destruct (nulls_first_by_default env);
    [apply asc_nulls_first_total | apply asc_nulls_last_total].
Qed.

#[local] Instance by_due_back_trans (env : Env) : Transitive (sorted_by (by_due_back env)).
Proof.
  intros x y z. unfold sorted_by, by_due_back. rewrite !Is_true_true.
  destruct (nulls_first_by_default env);
    [apply asc_nulls_first_trans | apply asc_nulls_last_trans].
Qed.

#[local] Instance by_due_back_nulls_last_total : Total (sorted_by by_due_back_nulls_last).
Proof.
  intros x y. unfold sorted_by, by_due_back_nulls_last. rewrite !Is_true_true.
  apply asc_nulls_last_total.
Qed.

#[local] Instance by_due_back_nulls_last_trans :
  Transitive (sorted_by by_due_back_nulls_last).
Proof.
  intros x y z. unfold sorted_by, by_due_back_nulls_last. rewrite !Is_true_true.
  apply asc_nulls_last_trans.
Qed.

Lemma StronglySorted_pairs {A : Type} (R : relation A) (l : list A) :
  StronglySorted R l →
  ∀ i j x y, (i < j)%nat → l !! i = Some x → l !! j = Some y → R x y.
Proof.
  induction 1 as [|a l _ IH Hall]; intros i j x y Hij Hi Hj; [done|].
  destruct j as [|j]; [lia|]. cbn in Hj.
  destruct i as [|i]; cbn in Hi.
  - injection Hi as ->. rewrite Forall_forall in Hall.
    apply Hall. by eapply list_elem_of_lookup_2.
  - apply (IH i j); [lia|done..].
Qed.

Lemma nulls_last_pairs (le : BookInstance.t → BookInstance.t → bool)
    (l : list BookInstance.t) :
  (∀ x y, le x y = asc_nulls_last (BookInstance.due_back x) (BookInstance.due_back y)) →
  StronglySorted (sorted_by le) l → due_back_nulls_last l.
Proof.
  intros Hle Hs i j x y Hij Hi Hj.
  pose proof (StronglySorted_pairs _ _ Hs i j x y Hij Hi Hj) as H.
  unfold sorted_by in H. rewrite Hle in H. unfold asc_nulls_last in H.
  destruct (BookInstance.due_back x), (BookInstance.due_back y); try done.
  apply Is_true_true in H. by apply Z.leb_le.
Qed.


(** The listing of a caller's loans holds the instances lent to the caller
    that are on loan, each once, in the backend's ascending order. *)
Lemma loaned_books_rows (env : Env) (request : Request) (s : Store) :
  let listing := qs_rows (LoanedBooksByUserListView_get_queryset env request) s in
  listing ≡ₚ
    List.filter
      (λ i, bool_decide (BookInstance.borrower i = Some (user_id (user request)) ∧
                         BookInstance.status i = "o"))
      (map_to_list (bookinstances s)).*2 ∧
  StronglySorted (sorted_by (by_due_back env)) listing.
Proof.
  cbn. split.
  - rewrite merge_sort_Permutation.
    induction ((map_to_list (bookinstances s)).*2) as [|i l IH]; [done|].
    cbn [List.filter]. unfold borrower_is at 1, status__exact at 1.
    destruct (bool_decide_reflect
                (BookInstance.borrower i = Some (user_id (user request)))) as [Hb|Hb];
      cbn [List.filter].
    + destruct (String.eqb_spec (BookInstance.status i) "o") as [Hs|Hs].
      * rewrite bool_decide_eq_true_2 by done. by rewrite IH.
      * rewrite bool_decide_eq_false_2 by (intros [_ ?]; done). done.
    + rewrite bool_decide_eq_false_2 by (intros [? _]; done). done.
  - apply StronglySorted_merge_sort; apply _.
Qed.

(** X5: on a backend that orders NULL last, the caller's loans come in
    ascending order of [due_back] with the NULLs last. *)
Lemma loaned_books_nulls_last (env : Env) (request : Request) (s : Store) :
  nulls_first_by_default env = false →
  due_back_nulls_last (qs_rows (LoanedBooksByUserListView_get_queryset env request) s).
Proof.
  intros Hlast. apply (nulls_last_pairs (by_due_back env)).
  - intros x y. unfold by_due_back. by rewrite Hlast.
  - apply (loaned_books_rows env request s).
Qed.

(** C5: on a backend that orders NULL first, such as SQLite, the listing of
    user 7's loans puts the copy without a due date before the copy that has
    one: [order_by('due_back')] does not ask for the NULLs last. *)
Theorem loaned_books_nulls_first :
  qs_rows (LoanedBooksByUserListView_get_queryset sample.sqlite (sample.get sample.member))
    sample.store = [sample.copy1; sample.copy2] ∧
  ¬ due_back_nulls_last
      (qs_rows
         (LoanedBooksByUserListView_get_queryset sample.sqlite (sample.get sample.member))
         sample.store).
Proof.
  assert (qs_rows
            (LoanedBooksByUserListView_get_queryset sample.sqlite
               (sample.get sample.member)) sample.store
          = [sample.copy1; sample.copy2]) as -> by (vm_compute; reflexivity).
  split; [done|].
  intros H. exact (H 0%nat 1%nat sample.copy1 sample.copy2 (le_n _) eq_refl eq_refl).
Qed.

End Listings.

Section Capabilities.

(** C9: the capability names that the models declare are the ones the access
    policy lists, [can_create_], [can_update_] and [can_delete_] for each of
    the five entities plus [can_mark_returned], and they are sixteen. *)
Theorem capability_names_sixteen :
  capability_names = policy_capabilities ∧ size capability_names = 16%nat.
Proof.
  split.
  - apply (bool_decide_unpack _). vm_compute. exact I.
  - vm_compute. reflexivity.
Qed.

(** C9, as stated: the declared capability names are not eleven. *)
Lemma capability_names_not_eleven :
  ¬ (capability_names = policy_capabilities ∧ size capability_names = 11%nat).
Proof. intros [_ H]. vm_compute in H. discriminate H. Qed.

(** X25: the views require the declared capabilities, under the application
    label, and every declared capability is required by some view. *)
Lemma views_require_declared :
  list_to_set (capability <$>
                 (AllInstances :: Renewal 0 :: ((λ v, Mutation v 0) <$> edit_views)))
  = (set_map (String.append "catalog.") capability_names : gset string).
Proof. apply (bool_decide_unpack _). vm_compute. exact I. Qed.

End Capabilities.

Section DisplayName.

Lemma BookInstance_str_linked (s : Store) (i : BookInstance.t) (k : Z) (b : Book.t) :
  BookInstance.book i = Some k →
  books s !! k = Some b →
  BookInstance_str s i =
    Returns (uuid.str (BookInstance.id i) +:+ " (" +:+ Book.title b +:+ ")").
Proof.
  intros Hk Hb. unfold BookInstance_str, BookInstance_book. by rewrite Hk, Hb.
Qed.

Lemma BookInstance_str_detached (s : Store) (i : BookInstance.t) :
  BookInstance.book i = None →
  BookInstance_str s i =
    Raise (AttributeError "'NoneType' object has no attribute 'title'").
Proof. intros Hk. unfold BookInstance_str, BookInstance_book. by rewrite Hk. Qed.

(** C10: once book 1 of the sample store is deleted, its copy 1 is still
    stored, with [book = None], and [__str__] of that copy raises
    [AttributeError] instead of returning a display name. *)
Theorem str_raises_after_book_delete :
  ∃ i,
    bookinstances (delete_book 1 sample.store) !! 1%Z = Some i ∧
    BookInstance.book i = None ∧
    BookInstance_str (delete_book 1 sample.store) i =
      Raise (AttributeError "'NoneType' object has no attribute 'title'").
Proof.
  exists (BookInstance.set_book None sample.copy1).
  split; [|split]; [|reflexivity|reflexivity].
  vm_compute. reflexivity.
Qed.

End DisplayName.

Section Keys.


End Keys.

(** * The properties on the sample data *)

Section Samples.

Local Open Scope Z_scope.

(** Copy 2, due on day 738110, is overdue the day after and not on the day;
    copy 1 has no due date and is never overdue. *)
Lemma is_overdue_sample :
  BookInstance.is_overdue 738111 sample.copy2 = true ∧
  BookInstance.is_overdue 738110 sample.copy2 = false ∧
  BookInstance.is_overdue 738111 sample.copy1 = false.
Proof.
  split; [|split].
  - apply (is_overdue_spec 738111 sample.copy2). exists 738110. split; [reflexivity|lia].
  - apply (is_overdue_spec 738110 sample.copy2) with (d := 738110); [reflexivity|lia].
  - apply (is_overdue_spec 738111 sample.copy1). reflexivity.
Defined.

(** Deleting the author, or the language, of "A Game of Thrones" keeps the
    book, detached. *)
Lemma delete_sets_null_sample :
  books (delete_author 1 sample.store) !! 1%Z =
    Some (Book.set_author None sample.thrones) ∧
  books (delete_language 1 sample.store) !! 1%Z =
    Some (Book.set_language None sample.thrones).
Proof.
  assert (books sample.store !! 1%Z = Some sample.thrones) as Hb by reflexivity.
  destruct (delete_sets_null sample.store 1 1 sample.thrones Hb) as [Ha Hl].
  split.
  - apply Ha. reflexivity.
  - apply Hl. reflexivity.
Defined.

(** On day 738100 the librarian may renew copy 2 until day 738121 (three
    weeks ahead) but not until day 738129 (more than four weeks ahead). *)
Lemma renew_validates_sample :
  (∃ w',
     respond (renew_book_librarian sample.sqlite
                (sample.post_renewal sample.librarian 738121) 2) sample.world =
       (HttpResponseRedirect (urls.reverse "all-bookinstances"), w') ∧
     BookInstance.due_back <$> bookinstances (db w') !! 2%Z = Some (Some 738121%Z)) ∧
  (∃ form w',
     respond (renew_book_librarian sample.sqlite
                (sample.post_renewal sample.librarian 738129) 2) sample.world =
       (HttpResponse "catalog/book_renew_librarian.html" (CtxRenew form sample.copy2), w') ∧
     forms.errors form ≠ [] ∧
     db w' = db sample.world ∧
     BookInstance.due_back <$> bookinstances (db w') !! 2%Z =
       Some (BookInstance.due_back sample.copy2)).
Proof.
  split.
  - apply (renew_validates sample.sqlite
             (sample.post_renewal sample.librarian 738121) 2 sample.world sample.copy2
             738121); try reflexivity.
    cbn. lia.
  - apply (renew_validates sample.sqlite
             (sample.post_renewal sample.librarian 738129) 2 sample.world sample.copy2
             738129); try reflexivity.
    cbn. lia.
Defined.

(** The accepted renewal of copy 2 keeps the rest of the row. *)
Lemma renew_frame_sample :
  ∃ inst',
    bookinstances
      (db (respond (renew_book_librarian sample.sqlite
                      (sample.post_renewal sample.librarian 738121) 2)
             sample.world).2) !! 2%Z = Some inst' ∧
    BookInstance.id inst' = 2%Z ∧
    BookInstance.status inst' = "o" ∧
    BookInstance.book inst' = Some 1%Z ∧
    BookInstance.imprint inst' = "Bantam, 1996" ∧
    BookInstance.borrower inst' = Some 7%Z.
Proof.
  apply (renew_frame sample.sqlite (sample.post_renewal sample.librarian 738121) 2
           sample.world _ sample.copy2); reflexivity.
Defined.

(** A member without [can_mark_returned] cannot renew copy 2. *)
Lemma gated_refuses_sample :
  ∃ r,
    respond (dispatch sample.sqlite (Renewal 2)
               (sample.post_renewal sample.member 738121)) sample.world =
      (r, sample.world) ∧
    is_forbidden r = true.
Proof.
  destruct (gated_refuses sample.sqlite (Renewal 2)
              (sample.post_renewal sample.member 738121) sample.world)
    as (r & Hr & Hf & _).
  - reflexivity.
  - exists r. split; [exact Hr | exact Hf].
Defined.

(** The home page over the sample store. *)
Lemma index_counts_sample :
  (∃ c w',
     respond (index sample.sqlite (sample.get sample.member)) sample.world =
       (HttpResponse "index.html" (CtxIndex c), w') ∧
     counts (books sample.store) (λ _, True) (num_books c) ∧
     counts (bookinstances sample.store) (λ i, BookInstance.status i = "a")
       (num_instances_available c) ∧
     counts (genres sample.store) (λ g, contains_ci "fantasy" (Genre.name g))
       (num_fantasy_genres c) ∧
     counts (books sample.store) (λ b, contains_ci "thrones" (Book.title b))
       (num_thrones_books c)) ∧
  (∃ c w',
     respond (index sample.postgresql (sample.get sample.member)) sample.world =
       (HttpResponse "index.html" (CtxIndex c), w') ∧
     counts (genres sample.store) (λ g, contains_ci "fantasy" (Genre.name g))
       (num_fantasy_genres c) ∧
     counts (books sample.store) (λ b, contains_ci "thrones" (Book.title b))
       (num_thrones_books c)).
Proof.
  split.
  - destruct (index_counts sample.sqlite (sample.get sample.member) sample.world)
      as (c & w' & Hrun & _ & Hb & _ & Ha & _ & Hf & Ht).
    + reflexivity.
    + left. intros t _. reflexivity.
    + exists c, w'. split; [exact Hrun|]. split; [exact Hb|].
      split; [exact Ha|]. split; [exact Hf | exact Ht].
  - destruct (index_counts sample.postgresql (sample.get sample.member) sample.world)
      as (c & w' & Hrun & _ & _ & _ & _ & _ & Hf & Ht).
    + reflexivity.
    + right. intros t [->|[->|[(k & g & Hg & <-)|(k & b & Hb & <-)]]].
      * reflexivity.
      * reflexivity.
      * change (({[ 1 := sample.epic_fantasy ]} : gmap Z Genre.t) !! k = Some g) in Hg.
        apply lookup_singleton_Some in Hg as [_ <-]. reflexivity.
      * change (({[ 1 := sample.thrones ]} : gmap Z Book.t) !! k = Some b) in Hb.
        apply lookup_singleton_Some in Hb as [_ <-]. reflexivity.
    + exists c, w'. split; [exact Hrun|]. split; [exact Hf | exact Ht].
Defined.

(** The long s is no case of the letter s. *)
Lemma long_s_not_fantasy : ¬ contains_ci "fantasy" "Fantaſy".
Proof.
  intros H.
  apply (icontains_spec Str.lower (λ _, True)) in H; [|by left|done..].
  vm_compute in H. discriminate H.
Qed.

(** C6, as stated: on a backend that matches with [UPPER], as PostgreSQL
    does, the home page counts the genre "Fantaſy" among the genres with
    "fantasy" in the name, although the name does not contain "fantasy" up
    to the case of letters: [UPPER] turns the long s into S. *)
Lemma index_counts_long_s :
  ¬ ∃ c w',
      respond (index sample.postgresql (sample.get sample.member))
        (sample.a_world sample_more.long_s_store) =
        (HttpResponse "index.html" (CtxIndex c), w') ∧
      counts (genres sample_more.long_s_store)
        (λ g, contains_ci "fantasy" (Genre.name g)) (num_fantasy_genres c).
Proof.
  intros (c & w' & Hrun & Hcount).
  assert (num_fantasy_genres c = 1%nat) as Hone.
  { apply (f_equal (λ r, match r.1 with
                         | HttpResponse _ (CtxIndex c) => num_fantasy_genres c
                         | _ => O
                         end)) in Hrun.
    vm_compute in Hrun. exact (eq_sym Hrun). }
  rewrite Hone in Hcount.
  assert (counts (genres sample_more.long_s_store)
            (λ g, contains_ci "fantasy" (Genre.name g)) 0) as Hzero.
  { exists ∅. split; [done|]. intros k. split; [by intros ?%not_elem_of_empty|].
    intros (g & Hg & Hci). exfalso.
    unfold sample_more.long_s_store in Hg. cbn [genres] in Hg.
    apply lookup_singleton_Some in Hg as [_ <-].
    by apply long_s_not_fantasy. }
  pose proof (counts_unique _ _ _ _ Hcount Hzero). discriminate.
Qed.

(** The same store shows one "fantasy" genre on the backend that matches
    with [UPPER] and none on SQLite. *)
Lemma index_long_s_backends :
  (respond (index sample.postgresql (sample.get sample.member))
     (sample.a_world sample_more.long_s_store)).1 =
  HttpResponse "index.html"
    (CtxIndex {| num_books := 0; num_instances := 0; num_instances_available := 0;
                 num_authors := 0; num_fantasy_genres := 1; num_thrones_books := 0;
                 num_visits := 0 |}) ∧
  (respond (index sample.sqlite (sample.get sample.member))
     (sample.a_world sample_more.long_s_store)).1 =
  HttpResponse "index.html"
    (CtxIndex {| num_books := 0; num_instances := 0; num_instances_available := 0;
                 num_authors := 0; num_fantasy_genres := 0; num_thrones_books := 0;
                 num_visits := 0 |}).
Proof. split; vm_compute; reflexivity. Qed.

(** The counters of the summary example. *)
Lemma index_summary_example :
  (respond (index sample.sqlite (sample.get sample.member))
     (sample.a_world sample.summary_store)).1 =
  HttpResponse "index.html"
    (CtxIndex {| num_books := 3; num_instances := 5; num_instances_available := 2;
                 num_authors := 4; num_fantasy_genres := 1; num_thrones_books := 0;
                 num_visits := 0 |}).
Proof. vm_compute. reflexivity. Qed.

(** Three visits in a new session show 0, 1, 2. *)
Lemma index_num_visits_sample :
  visits_shown <$>
    (home_views sample.sqlite 3 (sample.get sample.member) sample.world).1 =
    [Some 0%Z; Some 1%Z; Some 2%Z].
Proof.
  destruct (index_num_visits sample.sqlite (sample.get sample.member) sample.world)
    as [_ Hn].
  - reflexivity.
  - apply (Hn eq_refl 3%nat).
Defined.

End Samples.

(** * Further properties of the views *)

Section LoginGate.

(** X1: the home page, the listing of the caller's loans and the detail
    pages turn away a caller who is not logged in with the redirect to the
    login page, and leave the store, the session (so the visit counter) and
    the query log as they were. *)
Theorem anonymous_redirected (env : Env) (request : Request) (m : Model) (pk : Z)
    (w : World) :
  is_authenticated (user request) = false →
  respond (index env request) w = (RedirectToLogin, w) ∧
  respond (LoanedBooksByUserListView env request) w = (RedirectToLogin, w) ∧
  DetailView m request pk w = (Stop RedirectToLogin, w).
Proof.
  intros Hanon.
  unfold index, login_required, LoanedBooksByUserListView, LoginRequiredMixin,
    DetailView, handle_no_permission, respond.
  by rewrite Hanon.
Qed.

(** X2: a home-page view by a logged-in caller changes one key of the
    session, [num_visits], and asks the database six counting queries and
    nothing else. *)
Theorem index_touches_only_counter (env : Env) (request : Request) (w : World) :
  is_authenticated (user request) = true →
  (∀ k, k ≠ "num_visits" →
     session (respond (index env request) w).2 !! k = session w !! k) ∧
  queries (respond (index env request) w).2 =
    (queries w ++ [SELECT MBook; SELECT MBookInstance; SELECT MBookInstance;
                   SELECT MAuthor; SELECT MGenre; SELECT MBook])%list.
Proof.
  intros Hauth. split.
  - destruct (index_run env request w Hauth) as (c & w' & -> & _ & Hses & _).
    intros k Hk. cbn [snd]. by rewrite Hses, lookup_insert_ne.
  - unfold index, login_required, respond. rewrite Hauth.
    unfold mbind, M_bind, count, session_get, session_set, render, mret, M_ret.
    cbn [queries issue with_session snd]. by rewrite <- !app_assoc.
Qed.

Lemma filter_length_le {R : Type} (p : R → bool) (l : list R) :
  (List.length (List.filter p l) ≤ List.length l)%nat.
Proof. induction l as [|x l IH]; cbn; [done|]. destruct (p x); cbn; lia. Qed.

(** X3: on the home page the available instances never outnumber the
    instances, nor the books with "thrones" in the title the books. *)
Theorem index_counters_bounded (env : Env) (request : Request) (w : World) :
  is_authenticated (user request) = true →
  ∃ c w',
    respond (index env request) w = (HttpResponse "index.html" (CtxIndex c), w') ∧
    (num_instances_available c ≤ num_instances c)%nat ∧
    (num_thrones_books c ≤ num_books c)%nat.
Proof.
  intros Hauth.
  destruct (index_run env request w Hauth)
    as (c & w' & Hrun & _ & _ & _ & H1 & H2 & H3 & _ & _ & H6).
  exists c, w'. split; [done|]. rewrite H1, H2, H3, H6.
  split; apply filter_length_le.
Qed.

End LoginGate.

Section ListingViews.





End ListingViews.

Section RenewalMore.

Variable env : Env.

(** X7: asked with GET for an existing instance, the renewal page offers the
    date three weeks from today and stores nothing. *)
Theorem renew_get_proposes (request : Request) (pk : Z) (w : World)
    (inst : BookInstance.t) :
  has_perm (user request) "catalog.can_mark_returned" = true →
  method request = GET →
  bookinstances (db w) !! pk = Some inst →
  ∃ form w',
    respond (renew_book_librarian env request pk) w =
      (HttpResponse "catalog/book_renew_librarian.html" (CtxRenew form inst), w') ∧
    forms.initial form = Some (today env + 21)%Z ∧
    forms.is_bound form = false ∧
    db w' = db w ∧ session w' = session w.
Proof.
  intros Hperm Hget Hinst.
  unfold renew_book_librarian, permission_required, respond.
  rewrite Hperm, Hget. unfold mbind, M_bind, get_object_or_404. rewrite Hinst.
  cbn. eexists _, _. split; [reflexivity|]. done.
Qed.

(** X8: a renewal of an instance that is not stored answers 404, whatever
    the method and the date, and stores nothing. *)
Theorem renew_missing_404 (request : Request) (pk : Z) (w : World) :
  has_perm (user request) "catalog.can_mark_returned" = true →
  bookinstances (db w) !! pk = None →
  ∃ w',
    respond (renew_book_librarian env request pk) w = (Http404, w') ∧
    db w' = db w ∧ session w' = session w.
Proof.
  intros Hperm Hnone.
  unfold renew_book_librarian, permission_required, respond.
  rewrite Hperm. unfold mbind, M_bind, get_object_or_404. rewrite Hnone.
  eexists. split; [reflexivity|]. done.
Qed.

(** What a renewal that answered with the redirect has stored. *)
Lemma renew_success_inv (e : Env) (request : Request) (pk : Z) (w w' : World)
    (inst : BookInstance.t) :
  bookinstances (db w) !! pk = Some inst →
  respond (renew_book_librarian e request pk) w =
    (HttpResponseRedirect (urls.reverse "all-bookinstances"), w') →
  ∃ d,
    forms.is_valid (forms.bound (today e) (POST_renewal_date request)) = true ∧
    has_perm (user request) "catalog.can_mark_returned" = true ∧
    method request = POST ∧
    forms.cleaned_data (forms.bound (today e) (POST_renewal_date request)) = d ∧
    db w' = with_bookinstances
              <[BookInstance.id inst := BookInstance.set_due_back d inst]> (db w).
Proof.
  intros Hinst.
  unfold renew_book_librarian, permission_required, respond.
  destruct (has_perm _ _); [|done].
  unfold mbind, M_bind, get_object_or_404. rewrite Hinst.
  destruct (method request); [done|].
  destruct (forms.is_valid _) eqn:Hvalid; cbn; [|done].
  intros [= <-]. eexists. done.
Qed.

(** X9: of two renewals of the same instance that are accepted one after
    the other, the later one wins: the store ends as if the earlier one had
    not happened. *)
Theorem renew_last_write_wins (e2 : Env) (r1 r2 : Request) (pk : Z)
    (w w1 w2 : World) (inst : BookInstance.t) :
  bookinstances (db w) !! pk = Some inst →
  BookInstance.id inst = pk →
  respond (renew_book_librarian env r1 pk) w =
    (HttpResponseRedirect (urls.reverse "all-bookinstances"), w1) →
  respond (renew_book_librarian e2 r2 pk) w1 =
    (HttpResponseRedirect (urls.reverse "all-bookinstances"), w2) →
  db w2 = db (respond (renew_book_librarian e2 r2 pk) w).2.
Proof.
  intros Hinst Hid H1 H2.
  destruct (renew_success_inv _ _ _ _ _ _ Hinst H1) as (d1 & _ & _ & _ & _ & Hdb1).
  assert (bookinstances (db w1) !! pk = Some (BookInstance.set_due_back d1 inst))
    as Hinst1.
  { rewrite Hdb1, Hid. cbn. apply lookup_insert_eq. }
  destruct (renew_success_inv _ _ _ _ _ _ Hinst1 H2)
    as (d2 & Hvalid & Hperm & Hpost & Hd2 & Hdb2).
  unfold renew_book_librarian, permission_required, respond.
  rewrite Hperm, Hpost. unfold mbind, M_bind, get_object_or_404.
  rewrite Hinst, Hvalid, Hd2. cbn.
  rewrite Hdb2, Hdb1. cbn. unfold with_bookinstances. cbn.
  by rewrite insert_insert_eq.
Qed.

(** X10: in a store that keeps its rows under their primary keys, a renewal
    request, whatever comes of it, neither adds nor removes an instance. *)
Theorem renew_keeps_keys (request : Request) (pk : Z) (w : World) :
  keyed (db w) →
  dom (bookinstances (db (respond (renew_book_librarian env request pk) w).2)) =
  dom (bookinstances (db w)).
Proof.
  intros (_ & _ & _ & _ & Hi).
  unfold renew_book_librarian, permission_required, respond.
  destruct (has_perm _ _); [|done].
  unfold mbind, M_bind, get_object_or_404.
  destruct (bookinstances (db w) !! pk) as [inst|] eqn:Hinst; [|done].
  destruct (method request); [done|].
  destruct (forms.is_valid _); cbn; [|done].
  rewrite dom_insert_L. rewrite (Hi pk inst Hinst).
  apply elem_of_dom_2 in Hinst.
  apply subseteq_union_1_L. by apply singleton_subseteq_l.
Qed.

End RenewalMore.

Section SafeMethods.

(** X11: no gated operation touches the caller's session, and asked with
    GET none of them changes the store. *)
Theorem gated_get_is_safe (env : Env) (op : Gated) (request : Request) (w : World) :
  session (respond (dispatch env op request) w).2 = session w ∧
  (method request = GET → db (respond (dispatch env op request) w).2 = db w).
Proof.
  destruct op as [v pk|pk|]; cbn [dispatch].
  - unfold as_view, PermissionRequiredMixin, respond.
    destruct (has_perm _ _); [|done].
    unfold edit, mbind, M_bind, get_object, get_form, render, mret, M_ret,
      objects_create, objects_update, objects_delete, advance.
    split.
    + destruct (generic v), (method request); cbn;
        repeat (case_match; cbn); by simplify_eq.
    + intros ->. destruct (generic v); cbn;
        repeat (case_match; cbn); by simplify_eq.
  - unfold renew_book_librarian, permission_required, respond.
    destruct (has_perm _ _); [|done].
    unfold mbind, M_bind, get_object_or_404.
    destruct (bookinstances (db w) !! pk); [|done].
    split.
    + destruct (method request); [done|]. by destruct (forms.is_valid _).
    + by intros ->.
  - unfold BookinstancesAllListView, PermissionRequiredMixin, respond.
    destruct (has_perm _ _); [|done].
    unfold mbind, M_bind, paginate.
    by destruct (paginate_queryset _ paginate_by (GET_page request)).
Qed.

End SafeMethods.

(** * Further properties of the store *)

Section Deletion.

Lemma lookup_SET_NULL_Some {R : Type} (fk : R → option Z) (set_fk : option Z → R → R)
    (pk k : Z) (rows : gmap Z R) (r' : R) :
  SET_NULL fk set_fk pk rows !! k = Some r' ↔
  ∃ r, rows !! k = Some r ∧
       r' = if bool_decide (fk r = Some pk) then set_fk None r else r.
Proof.
  unfold SET_NULL. rewrite lookup_fmap, fmap_Some.
  split; intros (r & Hr & ->); by exists r.
Qed.

(** X12: deleting a [Book] removes it and keeps each of its instances,
    stored with [book = None]; from then on [__str__] of such an instance
    raises [AttributeError]. *)
Theorem delete_book_detaches (s : Store) (b k : Z) (i : BookInstance.t) :
  bookinstances s !! k = Some i →
  BookInstance.book i = Some b →
  books (delete_book b s) !! b = None ∧
  bookinstances (delete_book b s) !! k = Some (BookInstance.set_book None i) ∧
  BookInstance_str (delete_book b s) (BookInstance.set_book None i) =
    Raise (AttributeError "'NoneType' object has no attribute 'title'").
Proof.
  intros Hi Hb. split; [apply lookup_delete_eq|]. split; [|done].
  cbn. apply lookup_SET_NULL_Some. exists i. split; [done|].
  by rewrite bool_decide_eq_true_2.
Qed.

(** X13: deleting an [Author] leaves alone every book of another author or
    of none, every other author, and the genres, languages and instances. *)
Theorem delete_author_frame (s : Store) (pk : Z) :
  (∀ b bk, books s !! b = Some bk → Book.author bk ≠ Some pk →
     books (delete_author pk s) !! b = Some bk) ∧
  (∀ a, a ≠ pk → authors (delete_author pk s) !! a = authors s !! a) ∧
  dom (books (delete_author pk s)) = dom (books s) ∧
  genres (delete_author pk s) = genres s ∧
  languages (delete_author pk s) = languages s ∧
  bookinstances (delete_author pk s) = bookinstances s.
Proof.
  split; [|split; [|split]]; try done.
  - intros b bk Hb Hne. cbn. apply lookup_SET_NULL_Some. exists bk.
    split; [done|]. by rewrite bool_decide_eq_false_2.
  - intros a Ha. cbn. by rewrite lookup_delete_ne.
  - cbn. unfold SET_NULL. by rewrite dom_fmap_L.
Qed.

(** X14: deleting a [Genre] deletes no book: every book stays, with the
    genre taken out of its set of genres and every other field as before. *)
Theorem delete_genre_unlinks (s : Store) (pk b : Z) (bk : Book.t) :
  books s !! b = Some bk →
  genres (delete_genre pk s) !! pk = None ∧
  (∃ bk',
     books (delete_genre pk s) !! b = Some bk' ∧
     Book.genre bk' = (Book.genre bk ∖ {[pk]}) ∧
     (pk ∉ Book.genre bk') ∧
     Book.id bk' = Book.id bk ∧ Book.title bk' = Book.title bk ∧
     Book.author bk' = Book.author bk ∧ Book.summary bk' = Book.summary bk ∧
     Book.isbn bk' = Book.isbn bk ∧ Book.language bk' = Book.language bk).
Proof.
  intros Hb. split; [apply lookup_delete_eq|].
  exists (Book.set_genre (Book.genre bk ∖ {[pk]}) bk). split.
  - cbn. unfold unlink_genre. by rewrite lookup_fmap, Hb.
  - cbn. repeat split; try done.
    rewrite elem_of_difference, elem_of_singleton. tauto.
Qed.

Lemma linked_delete_row (m : Model) (pk : Z) (s : Store) :
  linked s → linked (delete_row m pk s).
Proof.
  intros [Hbooks Hinsts]. destruct m; cbn.
  - (* Genre *)
    split.
    + intros b bk'. cbn. unfold unlink_genre. rewrite lookup_fmap, fmap_Some.
      intros (bk & Hbk & ->). destruct (Hbooks b bk Hbk) as (Ha & Hl & Hg).
      cbn. split; [done|]. split; [done|].
      intros g. rewrite elem_of_difference, elem_of_singleton.
      intros [Hin Hne]. rewrite lookup_delete_ne by done. by apply Hg.
    + intros k i Hi b Hb. cbn. unfold unlink_genre. rewrite lookup_fmap.
      apply fmap_is_Some. by apply (Hinsts k i Hi).
  - (* Language *)
    split.
    + intros b bk'. cbn. rewrite lookup_SET_NULL_Some.
      intros (bk & Hbk & ->). destruct (Hbooks b bk Hbk) as (Ha & Hl & Hg).
      case_bool_decide as Hfk; cbn.
      * split; [done|]. split; [done|done].
      * split; [done|]. split; [|done].
        intros l Hlang. rewrite lookup_delete_ne by congruence. by apply Hl.
    + intros k i Hi b Hb. cbn. unfold SET_NULL. rewrite lookup_fmap.
      apply fmap_is_Some. by apply (Hinsts k i Hi).
  - (* Author *)
    split.
    + intros b bk'. cbn. rewrite lookup_SET_NULL_Some.
      intros (bk & Hbk & ->). destruct (Hbooks b bk Hbk) as (Ha & Hl & Hg).
      case_bool_decide as Hfk; cbn.
      * split; [done|]. split; [done|done].
      * split; [|done].
        intros a Hauth. rewrite lookup_delete_ne by congruence. by apply Ha.
    + intros k i Hi b Hb. cbn. unfold SET_NULL. rewrite lookup_fmap.
      apply fmap_is_Some. by apply (Hinsts k i Hi).
  - (* Book *)
    split.
    + cbn. by apply map_Forall_delete.
    + intros k i'. cbn. rewrite lookup_SET_NULL_Some.
      intros (i & Hi & ->). case_bool_decide as Hfk; cbn; [done|].
      intros b Hb. rewrite lookup_delete_ne by congruence.
      by apply (Hinsts k i Hi).
  - (* BookInstance *)
    split; [done|]. cbn. by apply map_Forall_delete.
Qed.

End Deletion.

Section Integrity.

Lemma ForeignKey_spec {R : Type} (table : gmap Z R) (blank : bool) (v : option Z) :
  ForeignKey table blank v = true → ∀ k, v = Some k → is_Some (table !! k).
Proof.
  intros H k ->. cbn in H. by apply bool_decide_eq_true in H.
Qed.

Lemma ManyToManyField_spec {R : Type} (table : gmap Z R) (v : gset Z) :
  ManyToManyField table v = true → ∀ k, k ∈ v → is_Some (table !! k).
Proof.
  unfold ManyToManyField. rewrite andb_true_iff, !bool_decide_eq_true.
  intros [_ H] k Hk. by apply H.
Qed.

Lemma is_Some_insert_mono {R : Type} (table : gmap Z R) (k j : Z) (x : R) :
  is_Some (table !! j) → is_Some (<[k := x]> table !! j).
Proof.
  intros H. destruct (decide (k = j)) as [->|Hne].
  - rewrite lookup_insert_eq. by eexists.
  - by rewrite lookup_insert_ne.
Qed.

Lemma linked_put_row (users : gset Z) (pk : Z) (r : Row) (s : Store) :
  linked s → full_clean users s r = true → linked (put_row pk r s).
Proof.
  intros [Hbooks Hinsts] Hclean. destruct r as [g|l|a|b|i]; cbn in *.
  - split; [|done]. intros k bk Hbk. destruct (Hbooks k bk Hbk) as (Ha & Hl & Hg).
    cbn. repeat split; try done. intros x Hx. by apply is_Some_insert_mono, Hg.
  - split; [|done]. intros k bk Hbk. destruct (Hbooks k bk Hbk) as (Ha & Hl & Hg).
    cbn. repeat split; try done. intros x Hx. by apply is_Some_insert_mono, Hl.
  - split; [|done]. intros k bk Hbk. destruct (Hbooks k bk Hbk) as (Ha & Hl & Hg).
    cbn. repeat split; try done. intros x Hx. by apply is_Some_insert_mono, Ha.
  - rewrite !andb_true_iff in Hclean.
    destruct Hclean as (((((_ & Hauthor) & _) & _) & Hgenre) & Hlang).
    split.
    + apply map_Forall_insert_2; [|done]. cbn.
      split; [by apply (ForeignKey_spec _ false)|].
      split; [by apply (ForeignKey_spec _ false)|].
      by apply ManyToManyField_spec.
    + intros k i Hi x Hx. cbn. by apply is_Some_insert_mono, (Hinsts k i Hi).
  - rewrite !andb_true_iff in Hclean.
    destruct Hclean as ((((Hbook & _) & _) & _) & _).
    split; [done|]. apply map_Forall_insert_2; [|done]. cbn.
    by apply (ForeignKey_spec _ false).
Qed.

Lemma form_valid_clean (v : EditView) (users : gset Z) (s : Store)
    (data : option Row) (r : Row) :
  form_valid v users s data = Some r → full_clean users s r = true.
Proof.
  unfold form_valid. destruct data as [r'|]; [|done].
  destruct (Model_eqb _ _ && full_clean users s r' && validate_unique v s r') eqn:H;
    [|done].
  intros [= <-]. rewrite !andb_true_iff in H. tauto.
Qed.

(** X15: referential integrity is an invariant of the gated operations: if
    every foreign key and genre link of the store points at a stored row
    before a create, update, delete, renewal or privileged listing, it does
    so afterwards.  Deletion keeps it by nulling the keys that pointed at
    the deleted row. *)
Theorem linked_dispatch (env : Env) (op : Gated) (request : Request) (w : World) :
  linked (db w) → linked (db (respond (dispatch env op request) w).2).
Proof.
  intros Hl. destruct op as [v pk|pk|]; cbn [dispatch].
  - unfold as_view, PermissionRequiredMixin, respond.
    destruct (has_perm _ _); [|done].
    unfold edit, mbind, M_bind, get_object, get_form, render, mret, M_ret,
      objects_create, objects_update, objects_delete.
    destruct (generic v), (method request); cbn;
      repeat (case_match; cbn); simplify_eq; cbn;
      try (by eauto using linked_delete_row).
    + match goal with
      | H : form_valid _ _ _ _ = Some ?r |- _ =>
          apply form_valid_clean in H;
          assert (db (advance r (new_pk r w) (with_db (put_row (new_pk r w) r) w)) =
                  put_row (new_pk r w) r (db w)) as -> by (by destruct r);
          by eapply linked_put_row
      end.
    + match goal with
      | H : form_valid _ _ _ _ = Some ?r |- _ =>
          apply form_valid_clean in H; by eapply linked_put_row
      end.
  - unfold renew_book_librarian, permission_required, respond.
    destruct (has_perm _ _); [|done].
    unfold mbind, M_bind, get_object_or_404.
    destruct (bookinstances (db w) !! pk) as [inst|] eqn:Hinst; [|done].
    destruct (method request); [done|].
    destruct (forms.is_valid _); cbn; [|done].
    destruct Hl as [Hbooks Hinsts]. split; [done|].
    apply map_Forall_insert_2; [|done]. cbn. by apply (Hinsts pk inst Hinst).
  - unfold BookinstancesAllListView, PermissionRequiredMixin, respond.
    destruct (has_perm _ _); [|done].
    unfold mbind, M_bind, paginate.
    by destruct (paginate_queryset _ paginate_by (GET_page request)).
Qed.

(** X16: in a store with referential integrity [__str__] of a stored
    instance never fails to find the book: it returns the id and the title
    of the book when the instance has one, and raises [AttributeError] when
    it has none. *)
Theorem str_on_linked_store (s : Store) (k : Z) (i : BookInstance.t) :
  linked s →
  bookinstances s !! k = Some i →
  match BookInstance.book i with
  | Some b =>
      ∃ bk, books s !! b = Some bk ∧
            BookInstance_str s i =
              Returns (uuid.str (BookInstance.id i) +:+ " (" +:+ Book.title bk +:+ ")")
  | None =>
      BookInstance_str s i =
        Raise (AttributeError "'NoneType' object has no attribute 'title'")
  end.
Proof.
  intros [_ Hinsts] Hi. destruct (BookInstance.book i) as [b|] eqn:Hb.
  - destruct (Hinsts k i Hi b Hb) as [bk Hbk]. exists bk. split; [done|].
    by apply (BookInstance_str_linked s i b bk).
  - by apply BookInstance_str_detached.
Qed.

End Integrity.

Section DeleteThenRead.


End DeleteThenRead.

Section DisplayGenre.

Variable collate : string → string → bool.

(** X18: [display_genre] joins with [", "] the names of at most three
    genres, each the name of a stored genre that the book is linked to; a
    book with no genre displays the empty string. *)
Theorem display_genre_names (s : Store) (self : Book.t) :
  (∃ shown : list Genre.t,
     Book_display_genre collate s self = String.concat ", " (Genre.name <$> shown) ∧
     (List.length shown ≤ 3)%nat ∧
     List.length shown = Nat.min 3 (size (Book.genre self ∩ dom (genres s))) ∧
     ∀ g, g ∈ shown →
       ∃ k, k ∈ Book.genre self ∧ genres s !! k = Some g) ∧
  (Book.genre self = ∅ → Book_display_genre collate s self = "").
Proof.
  unfold Book_display_genre, Book_genre_all.
  set (linked_rows :=
         filter (λ kv : Z * Genre.t, kv.1 ∈ Book.genre self) (genres s)).
  set (R := sorted_by _).
  assert (size linked_rows = size (Book.genre self ∩ dom (genres s))) as Hsize.
  { rewrite <- size_dom. f_equal. apply set_eq. intros k.
    rewrite elem_of_intersection, !elem_of_dom. unfold linked_rows, is_Some.
    setoid_rewrite map_lookup_filter_Some. cbn.
    split; [intros (x & Hx & Hk); eauto | intros (Hk & x & Hx); eauto]. }
  split.
  - exists (take 3 (merge_sort R (map_to_list linked_rows).*2)).
    split; [done|]. rewrite length_take.
    assert (List.length (merge_sort R (map_to_list linked_rows).*2) = size linked_rows)
      as Hlen.
    { rewrite merge_sort_Permutation, length_fmap. apply length_map_to_list. }
    rewrite Hlen, Hsize. split; [lia|]. split; [done|].
    intros g Hg. apply elem_of_take in Hg as (j & Hj & _).
    apply list_elem_of_lookup_2 in Hj. rewrite merge_sort_Permutation in Hj.
    apply list_elem_of_fmap in Hj as ([k g'] & -> & Hin).
    apply elem_of_map_to_list in Hin. unfold linked_rows in Hin.
    apply map_lookup_filter_Some in Hin as [Hk Hlinked]. by exists k.
  - intros Hempty.
    assert (linked_rows = ∅) as ->.
    { apply map_size_empty_iff. rewrite Hsize, Hempty.
      by rewrite intersection_empty_l_L, size_empty. }
    by rewrite map_to_list_empty.
Qed.

End DisplayGenre.

Section Pagination.

Context {R : Type}.

Lemma num_pages_covers (per_page count : nat) :
  (0 < per_page)%nat →
  (1 ≤ Paginator.num_pages per_page count)%nat ∧
  (count ≤ Paginator.num_pages per_page count * per_page)%nat ∧
  (0 < count →
   (Paginator.num_pages per_page count - 1) * per_page < count)%nat.
Proof.
  intros Hpp. unfold Paginator.num_pages.
  set (a := (Nat.max 1 count + per_page - 1)%nat).
  pose proof (Nat.div_mod_eq a per_page) as Hdm.
  pose proof (Nat.mod_upper_bound a per_page ltac:(lia)) as Hmod.
  assert (a = Nat.max 1 count + per_page - 1)%nat as Ha by done.
  split; [|split].
  - destruct (a / per_page)%nat eqn:Hq; [|lia]. lia.
  - nia.
  - intros Hcount. nia.
Qed.

Lemma page_in_range (per_page : nat) (l : list R) (n : nat) :
  (0 < per_page)%nat →
  (1 ≤ n ≤ Paginator.num_pages per_page (List.length l))%nat →
  Paginator.page per_page l (Z.of_nat n) =
    Some (take per_page (drop ((n - 1) * per_page) l)).
Proof.
  intros Hpp [Hlo Hhi]. unfold Paginator.page.
  destruct (Z.ltb_spec (Z.of_nat n) 1); [lia|].
  destruct (Z.ltb_spec (Z.of_nat (Paginator.num_pages per_page (List.length l)))
              (Z.of_nat n)); [lia|].
  rewrite Nat2Z.id. f_equal.
  destruct (Nat.leb_spec (List.length l) ((n - 1) * per_page + per_page)) as [Hle|Hgt].
  - rewrite !take_ge; [done|rewrite length_drop; lia..].
  - f_equal. lia.
Qed.

Lemma page_out_of_range (per_page : nat) (l : list R) (n : Z) :
  (n < 1 ∨ Z.of_nat (Paginator.num_pages per_page (List.length l)) < n)%Z →
  Paginator.page per_page l n = None.
Proof.
  intros Hn. unfold Paginator.page.
  destruct (Z.ltb_spec n 1); [done|].
  destruct (Z.ltb_spec (Z.of_nat (Paginator.num_pages per_page (List.length l))) n);
    [done|lia].
Qed.

Lemma chunks_concat (per_page n : nat) (l : list R) :
  (List.length l ≤ n * per_page)%nat →
  List.concat ((λ k, take per_page (drop (k * per_page) l)) <$> seq 0 n) = l.
Proof.
  revert l. induction n as [|n IH]; intros l Hlen.
  - destruct l; [done|cbn in Hlen; lia].
  - cbn [seq fmap list_fmap List.concat]. rewrite <- fmap_S_seq, <- list_fmap_compose.
    assert (((λ k, take per_page (drop (k * per_page) l)) ∘ S) <$> seq 0 n =
            (λ k, take per_page (drop (k * per_page) (drop per_page l))) <$> seq 0 n)
      as ->.
    { apply list_fmap_ext. intros _ k _. cbn [compose].
      by rewrite drop_drop. }
    rewrite IH by (rewrite length_drop; lia). cbn [Nat.mul drop].
    apply take_drop.
Qed.

(** X19: a page that a list view serves holds at most ten objects, which
    are consecutive objects of the listing, and it is empty only when the
    listing is. *)
Theorem served_page_size (l objs : list R) (page : PageParam) :
  paginate_queryset l paginate_by page = Done objs →
  (List.length objs ≤ 10)%nat ∧
  (∃ before after, l = before ++ objs ++ after)%list ∧
  (objs = [] → l = []).
Proof.
  unfold paginate_queryset, paginate_by.
  destruct (num_pages_covers 10 (List.length l) ltac:(lia))
    as (Hnp1 & Hcover & Hlast).
  assert (∀ n : Z, Paginator.page 10 l n = Some objs →
            (List.length objs ≤ 10)%nat ∧
            (∃ before after, l = before ++ objs ++ after)%list ∧
            (objs = [] → l = [])) as Hpage.
  { intros n Hn.
    destruct (decide (1 ≤ n ≤ Z.of_nat (Paginator.num_pages 10 (List.length l)))%Z)
      as [Hin|Hout].
    - rewrite <- (Z2Nat.id n) in Hn by lia.
      rewrite page_in_range in Hn by lia.
      injection Hn as <-. split; [|split].
      + rewrite length_take. lia.
      + exists (take ((Z.to_nat n - 1) * 10) l),
               (drop 10 (drop ((Z.to_nat n - 1) * 10) l)).
        by rewrite !take_drop.
      + intros Hempty. apply (f_equal List.length) in Hempty.
        rewrite length_take, length_drop in Hempty. cbn [List.length] in Hempty.
        destruct l as [|x l']; [done|]. exfalso.
        cbn [List.length] in Hlast, Hempty, Hin. lia.
    - rewrite page_out_of_range in Hn by lia. done. }
  destruct page as [|n| |]; cbv beta iota zeta.
  - destruct (Paginator.page 10 l 1) eqn:Hp; [|done].
    intros [= <-]. by apply (Hpage 1%Z).
  - destruct (Paginator.page 10 l n) eqn:Hp; [|done].
    intros [= <-]. by apply (Hpage n).
  - destruct (Paginator.page 10 l _) eqn:Hp; [|done].
    intros [= <-]. by eapply Hpage.
  - done.
Qed.

(** X20: the pages of a listing, taken in order from 1 to the number of
    pages, are all served and together give the listing back: no object is
    dropped, repeated or moved by pagination. *)
Theorem pages_cover_listing (l : list R) :
  ∃ pages,
    Forall2 (λ n objs, paginate_queryset l paginate_by (PageNumber (Z.of_nat n)) = Done objs)
      (seq 1 (Paginator.num_pages paginate_by (List.length l))) pages ∧
    List.concat pages = l.
Proof.
  unfold paginate_by.
  destruct (num_pages_covers 10 (List.length l) ltac:(lia)) as (Hnp1 & Hcover & _).
  exists ((λ k, take 10 (drop (k * 10) l)) <$>
            seq 0 (Paginator.num_pages 10 (List.length l))).
  split; [|by apply chunks_concat].
  rewrite <- fmap_S_seq. apply Forall2_fmap, Forall_Forall2_diag, Forall_forall.
  intros k Hk. apply elem_of_seq in Hk. unfold paginate_queryset.
  rewrite page_in_range by lia.
  do 3 f_equal. lia.
Qed.

(** X21: a request without a page number gets the first ten objects and a
    request for [last] gets the last page, also when the listing is empty; a
    page number below 1 or above the number of pages, or a page parameter
    that is no number, gets 404. *)
Theorem page_param_handling (l : list R) :
  paginate_queryset l paginate_by PageAbsent = Done (take 10 l) ∧
  (∃ objs, paginate_queryset l paginate_by PageLast = Done objs) ∧
  paginate_queryset l paginate_by PageOther = Stop Http404 ∧
  (∀ n, (n < 1 ∨ Z.of_nat (Paginator.num_pages paginate_by (List.length l)) < n)%Z →
     paginate_queryset l paginate_by (PageNumber n) = Stop Http404).
Proof.
  unfold paginate_by.
  destruct (num_pages_covers 10 (List.length l) ltac:(lia)) as (Hnp1 & _ & _).
  unfold paginate_queryset. split; [|split; [|split]].
  - change 1%Z with (Z.of_nat 1).
    by rewrite page_in_range by lia.
  - rewrite page_in_range by lia. by eexists.
  - done.
  - intros n Hn. by rewrite page_out_of_range by lia.
Qed.

End Pagination.

Section DisplayIdentity.

Lemma string_length_app (a b : string) :
  String.length (a +:+ b) = (String.length a + String.length b)%nat.
Proof. induction a as [|c a IH]; simpl; [done|]. by rewrite IH. Qed.

Lemma string_app_inj_length (a b x y : string) :
  String.length a = String.length b → a +:+ x = b +:+ y → a = b ∧ x = y.
Proof.
  revert b. induction a as [|c a IH]; intros [|c' b] Hlen Heq; try done.
  simpl in Heq. injection Heq as -> Heq. injection Hlen as Hlen.
  destruct (IH b Hlen Heq) as [-> ->]. done.
Qed.

Lemma hex_digit_inj (a b : Z) :
  (0 ≤ a < 16)%Z → (0 ≤ b < 16)%Z → Str.hex_digit a = Str.hex_digit b → a = b.
Proof.
  intros Ha Hb. unfold Str.hex_digit.
  rewrite <- (Z2Nat.id a), <- (Z2Nat.id b) by lia.
  assert (Z.to_nat a < 16)%nat as Hna by lia.
  assert (Z.to_nat b < 16)%nat as Hnb by lia.
  rewrite !Nat2Z.id.
  generalize dependent (Z.to_nat b). generalize dependent (Z.to_nat a).
  clear a b Ha Hb. intros a Ha b Hb.
  do 16 (destruct a as [|a]; [do 16 (destruct b as [|b]; [done|]); lia|]). lia.
Qed.

Lemma hex_fixed_length (width : nat) (n : Z) :
  String.length (Str.hex_fixed width n) = width.
Proof.
  revert n. induction width as [|w IH]; intros n; [done|].
  cbn [Str.hex_fixed]. rewrite string_length_app, IH. cbn. lia.
Qed.

Lemma hex_fixed_inj (width : nat) (n m : Z) :
  (0 ≤ n < 16 ^ Z.of_nat width)%Z → (0 ≤ m < 16 ^ Z.of_nat width)%Z →
  Str.hex_fixed width n = Str.hex_fixed width m → n = m.
Proof.
  revert n m. induction width as [|w IH]; intros n m Hn Hm Heq.
  - change (16 ^ Z.of_nat 0)%Z with 1%Z in *. lia.
  - rewrite Nat2Z.inj_succ, Z.pow_succ_r in Hn, Hm by lia.
    cbn [Str.hex_fixed] in Heq.
    apply string_app_inj_length in Heq as [Hhi Hlo];
      [|by rewrite !hex_fixed_length].
    injection Hlo as Hlo.
    apply hex_digit_inj in Hlo; [|apply Z.mod_pos_bound; lia..].
    apply IH in Hhi;
      [|split; [apply Z.div_pos; lia | apply Z.div_lt_upper_bound; lia]..].
    rewrite (Z.div_mod n 16), (Z.div_mod m 16) by lia. by rewrite Hhi, Hlo.
Qed.

(** The grouping 8-4-4-4-12 of 32 hexadecimal digits loses nothing. *)
Lemma uuid_str_inj (u v : uuid.UUID) :
  (0 ≤ u < 2 ^ 128)%Z → (0 ≤ v < 2 ^ 128)%Z → uuid.str u = uuid.str v → u = v.
Proof.
  intros Hu Hv Heq. apply (hex_fixed_inj 32); [done..|].
  unfold uuid.str in Heq.
  pose proof (hex_fixed_length 32 u) as Hlu.
  pose proof (hex_fixed_length 32 v) as Hlv.
  destruct (Str.hex_fixed 32 u) as [|a1 h]; [done|].
  destruct (Str.hex_fixed 32 v) as [|b1 k]; [done|].
  do 31 (destruct h as [|? h]; [done|]).
  do 31 (destruct k as [|? k]; [done|]).
  destruct h; [|done]. destruct k; [|done].
  cbn in Heq. by simplify_eq.
Qed.

Lemma uuid_str_length (u : uuid.UUID) : String.length (uuid.str u) = 36%nat.
Proof.
  unfold uuid.str. pose proof (hex_fixed_length 32 u) as Hlu.
  destruct (Str.hex_fixed 32 u) as [|a1 h]; [done|].
  do 31 (destruct h as [|? h]; [done|]).
  destruct h; [|done]. done.
Qed.

(** X22: the display names of two instances with different ids differ,
    whatever their books: the name starts with the 36 characters of the id,
    and distinct ids are written differently. *)
Theorem display_names_differ (i j : BookInstance.t) (bi bj : Book.t) :
  (0 ≤ BookInstance.id i < 2 ^ 128)%Z →
  (0 ≤ BookInstance.id j < 2 ^ 128)%Z →
  BookInstance.id i ≠ BookInstance.id j →
  BookInstance.str (Some bi) i ≠ BookInstance.str (Some bj) j.
Proof.
  intros Hi Hj Hne Heq. apply Hne. unfold BookInstance.str in Heq.
  assert (uuid.str (BookInstance.id i) +:+ (" (" +:+ Book.title bi +:+ ")") =
          uuid.str (BookInstance.id j) +:+ (" (" +:+ Book.title bj +:+ ")"))
    as Heq' by congruence.
  apply string_app_inj_length in Heq' as [Heq' _];
    [|by rewrite !uuid_str_length].
  by apply uuid_str_inj.
Qed.

End DisplayIdentity.

Section Overdue.

(** X24: an instance that is overdue on some day is overdue on every later
    day, and one that is not overdue is not overdue on any earlier day, as
    long as its due date stays the same. *)
Theorem is_overdue_monotone (t t' : date) (i : BookInstance.t) :
  (t ≤ t')%Z →
  (BookInstance.is_overdue t i = true → BookInstance.is_overdue t' i = true) ∧
  (BookInstance.is_overdue t' i = false → BookInstance.is_overdue t i = false).
Proof.
  intros Hle. unfold BookInstance.is_overdue.
  destruct (BookInstance.due_back i) as [d|]; [|done].
  destruct (Z.gtb_spec t d), (Z.gtb_spec t' d); try done; lia.
Qed.

End Overdue.

(** * The further properties on the sample data *)

Section MoreSamples.

Local Open Scope Z_scope.

Lemma sample_store_keyed : keyed sample.store.
Proof. repeat split; apply (bool_decide_unpack _); vm_compute; exact I. Qed.

Lemma sample_store_linked : linked sample.store.
Proof.
  split.
  - intros k b Hk. unfold sample.store in Hk. cbn [books] in Hk.
    apply lookup_singleton_Some in Hk as [<- <-].
    split; [|split].
    + intros a [= <-]. by eexists.
    + intros l [= <-]. by eexists.
    + intros g Hg. unfold sample.thrones in Hg. cbn [Book.genre] in Hg.
      apply elem_of_singleton in Hg as ->. by eexists.
  - intros k i Hk. unfold sample.store in Hk. cbn [bookinstances] in Hk.
    rewrite !lookup_insert_Some, lookup_singleton_Some in Hk.
    destruct Hk as [[<- <-]|[_ [[<- <-]|[_ [<- <-]]]]];
      intros b [= <-]; by eexists.
Qed.

(** A caller who is not logged in gets no home page and no visit counted. *)
Lemma anonymous_redirected_sample :
  respond (index sample.sqlite (sample.get sample_more.anonymous)) sample.world =
    (RedirectToLogin, sample.world).
Proof.
  apply (anonymous_redirected sample.sqlite (sample.get sample_more.anonymous)
           MBook 1 sample.world).
  reflexivity.
Defined.

Lemma index_touches_only_counter_sample :
  queries (respond (index sample.sqlite (sample.get sample.member)) sample.world).2 =
    [SELECT MBook; SELECT MBookInstance; SELECT MBookInstance;
     SELECT MAuthor; SELECT MGenre; SELECT MBook].
Proof.
  apply (index_touches_only_counter sample.sqlite (sample.get sample.member)
           sample.world).
  reflexivity.
Defined.

Lemma index_counters_bounded_sample :
  ∃ c w',
    respond (index sample.sqlite (sample.get sample.member)) sample.world =
      (HttpResponse "index.html" (CtxIndex c), w') ∧
    (num_instances_available c ≤ num_instances c)%nat ∧
    (num_thrones_books c ≤ num_books c)%nat.
Proof.
  apply (index_counters_bounded sample.sqlite (sample.get sample.member)
           sample.world).
  reflexivity.
Defined.


(** Of the twelve loans the first page shows ten and the second the last
    two; there is no third page. *)
Lemma loaned_books_pages :
  (respond (LoanedBooksByUserListView sample.postgresql (sample.get sample.member))
     (sample.a_world sample_more.twelve_loans)).1 =
    HttpResponse "catalog/bookinstance_list_borrowed_user.html"
      (CtxObjectList (sample_more.loan <$> [1; 2; 3; 4; 5; 6; 7; 8; 9; 10])) ∧
  (respond (LoanedBooksByUserListView sample.postgresql
              (sample.get_page sample.member 2))
     (sample.a_world sample_more.twelve_loans)).1 =
    HttpResponse "catalog/bookinstance_list_borrowed_user.html"
      (CtxObjectList [sample_more.loan 11; sample_more.loan 12]) ∧
  (respond (LoanedBooksByUserListView sample.postgresql
              (sample.get_page sample.member 3))
     (sample.a_world sample_more.twelve_loans)).1 = Http404.
Proof. repeat split; vm_compute; reflexivity. Qed.

(** On PostgreSQL the loans of user 7 come with the undated copy last. *)
Lemma loaned_books_nulls_last_sample :
  due_back_nulls_last
    (qs_rows (LoanedBooksByUserListView_get_queryset sample.postgresql
                (sample.get sample.member)) sample.store).
Proof.
  apply (loaned_books_nulls_last sample.postgresql (sample.get sample.member)
           sample.store).
  reflexivity.
Defined.


(** On day 738100 the renewal page of copy 2 offers day 738121. *)
Lemma renew_get_proposes_sample :
  ∃ form w',
    respond (renew_book_librarian sample.sqlite (sample.get sample.librarian) 2)
      sample.world =
      (HttpResponse "catalog/book_renew_librarian.html" (CtxRenew form sample.copy2), w') ∧
    forms.initial form = Some 738121.
Proof.
  destruct (renew_get_proposes sample.sqlite (sample.get sample.librarian) 2
              sample.world sample.copy2)
    as (form & w' & Hrun & Hinit & _); try reflexivity.
  exists form, w'. split; [exact Hrun | exact Hinit].
Defined.

Lemma renew_missing_404_sample :
  ∃ w',
    respond (renew_book_librarian sample.sqlite
               (sample.post_renewal sample.librarian 738121) 99) sample.world =
      (Http404, w') ∧
    db w' = sample.store.
Proof.
  destruct (renew_missing_404 sample.sqlite
              (sample.post_renewal sample.librarian 738121) 99 sample.world)
    as (w' & Hrun & Hdb & _); try reflexivity.
  exists w'. split; [exact Hrun | exact Hdb].
Defined.

(** Renewing copy 2 to day 738110 and then to day 738121 stores what
    renewing it to day 738121 alone stores. *)
Lemma renew_last_write_wins_sample :
  db (respond (renew_book_librarian sample.sqlite
                 (sample.post_renewal sample.librarian 738121) 2)
        (respond (renew_book_librarian sample.sqlite
                    (sample.post_renewal sample.librarian 738110) 2)
           sample.world).2).2 =
  db (respond (renew_book_librarian sample.sqlite
                 (sample.post_renewal sample.librarian 738121) 2) sample.world).2.
Proof.
  apply (renew_last_write_wins sample.sqlite sample.sqlite
           (sample.post_renewal sample.librarian 738110)
           (sample.post_renewal sample.librarian 738121) 2
           sample.world
           (respond (renew_book_librarian sample.sqlite
                       (sample.post_renewal sample.librarian 738110) 2)
              sample.world).2
           _ sample.copy2); reflexivity.
Defined.

Lemma renew_keeps_keys_sample :
  dom (bookinstances
         (db (respond (renew_book_librarian sample.sqlite
                         (sample.post_renewal sample.librarian 738121) 2)
                sample.world).2)) =
  dom (bookinstances sample.store).
Proof.
  apply (renew_keeps_keys sample.sqlite
           (sample.post_renewal sample.librarian 738121) 2 sample.world).
  exact sample_store_keyed.
Defined.

Lemma linked_dispatch_sample :
  linked (db (respond (dispatch sample.sqlite (Mutation AuthorDelete 1)
                         (sample_more.post sample_more.archivist)) sample.world).2).
Proof.
  apply (linked_dispatch sample.sqlite (Mutation AuthorDelete 1)
           (sample_more.post sample_more.archivist) sample.world).
  exact sample_store_linked.
Defined.

(** Deleting book 1 keeps its copy 2, detached. *)
Lemma delete_book_detaches_sample :
  bookinstances (delete_book 1 sample.store) !! 2 =
    Some (BookInstance.set_book None sample.copy2).
Proof.
  apply (delete_book_detaches sample.store 1 2 sample.copy2); reflexivity.
Defined.

Lemma delete_genre_unlinks_sample :
  ∃ bk',
    books (delete_genre 1 sample.store) !! 1 = Some bk' ∧
    Book.genre bk' = ({[ 1 ]} ∖ {[ 1 ]} : gset Z) ∧
    Book.title bk' = "A Game of Thrones".
Proof.
  destruct (delete_genre_unlinks sample.store 1 1 sample.thrones) as [_ Hbook].
  - reflexivity.
  - destruct Hbook as (bk' & Hbk & Hgenre & _ & _ & Htitle & _).
    exists bk'. split; [exact Hbk|]. split; [exact Hgenre | exact Htitle].
Defined.

Lemma str_on_linked_store_sample :
  BookInstance_str sample.store sample.copy1 =
    Returns "00000000-0000-0000-0000-000000000001 (A Game of Thrones)" ∧
  BookInstance_str sample.store sample.copy3 =
    Raise (AttributeError "'NoneType' object has no attribute 'title'").
Proof.
  split.
  - destruct (str_on_linked_store sample.store 1 sample.copy1 sample_store_linked)
      as (bk & Hbk & Hstr); [reflexivity|].
    rewrite Hstr. injection Hbk as <-. reflexivity.
  - apply (str_on_linked_store sample.store 3 sample.copy3 sample_store_linked).
    reflexivity.
Defined.


(** Page 3 of 25 objects holds the last five. *)
Lemma served_page_size_sample :
  paginate_queryset sample_more.listing25 paginate_by (PageNumber 3) =
    Done [20; 21; 22; 23; 24]%nat ∧
  (List.length [20; 21; 22; 23; 24]%nat ≤ 10)%nat.
Proof.
  assert (paginate_queryset sample_more.listing25 paginate_by (PageNumber 3) =
            Done [20; 21; 22; 23; 24]%nat) as Hpage by reflexivity.
  split; [exact Hpage|].
  apply (served_page_size sample_more.listing25 _ (PageNumber 3) Hpage).
Defined.

Lemma display_names_differ_sample :
  BookInstance.str (Some sample.thrones) sample.copy1 ≠
  BookInstance.str (Some sample.thrones) sample.copy2.
Proof.
  apply (display_names_differ sample.copy1 sample.copy2 sample.thrones sample.thrones).
  - cbn. lia.
  - cbn. lia.
  - cbn. lia.
Defined.

(** The anthology is linked to five genres, four of them stored: three are
    displayed. *)
Lemma display_genre_sample :
  Book_display_genre String.leb sample_more.genre_store sample_more.anthology =
    "Crime, Epic Fantasy, Poetry".
Proof. vm_compute. reflexivity. Qed.

(** A GET of the renewal page of copy 2 stores nothing. *)
Lemma gated_get_is_safe_sample :
  db (respond (dispatch sample.sqlite (Renewal 2) (sample.get sample.librarian))
        sample.world).2 = sample.store.
Proof.
  apply (gated_get_is_safe sample.sqlite (Renewal 2) (sample.get sample.librarian)
           sample.world).
  reflexivity.
Defined.

(** Deleting an author that wrote none of the books changes no book. *)
Lemma delete_author_frame_sample :
  books (delete_author 2 sample.store) !! 1 = Some sample.thrones.
Proof.
  apply (delete_author_frame sample.store 2); [reflexivity|].
  cbn. discriminate.
Defined.

(** There is no page 4 of 25 objects, and no page 0. *)
Lemma page_param_handling_sample :
  paginate_queryset sample_more.listing25 paginate_by (PageNumber 4) = Stop Http404 ∧
  paginate_queryset sample_more.listing25 paginate_by (PageNumber 0) = Stop Http404.
Proof.
  split.
  - apply (page_param_handling sample_more.listing25). right. vm_compute. reflexivity.
  - apply (page_param_handling sample_more.listing25). left. lia.
Defined.

(** An update of copy 2 posted with the id changed to 5 is saved under 5,
    and copy 2 stays as it was. *)
Lemma BookInstanceUpdate_posted_id :
  let w' := (respond (as_view BookInstanceUpdate
                        (sample_more.post_row sample_more.editor
                           (BookInstanceRow sample_more.copy2_as_5)) 2)
               sample.world).2 in
  bookinstances (db w') !! 5 = Some sample_more.copy2_as_5 ∧
  bookinstances (db w') !! 2 = Some sample.copy2.
Proof. split; vm_compute; reflexivity. Qed.

(** The form of a copy whose borrower is no user is not valid: nothing is
    stored. *)
Lemma BookInstanceUpdate_unknown_borrower :
  db (respond (as_view BookInstanceUpdate
                 (sample_more.post_row sample_more.editor
                    (BookInstanceRow sample_more.copy3_lent_to_nobody)) 3)
        sample.world).2 = sample.store.
Proof. vm_compute. reflexivity. Qed.

(** A new author gets key 2; once that author is deleted, the next new
    author gets key 3. *)
Lemma AuthorCreate_no_key_reuse :
  let create := as_view AuthorCreate
                  (sample_more.post_row sample_more.editor
                     (AuthorRow sample_more.tolkien)) 0 in
  let delete := as_view AuthorDelete (sample_more.post sample_more.editor) 2 in
  let w1 := (respond create sample.world).2 in
  let w2 := (respond delete w1).2 in
  let w3 := (respond create w2).2 in
  dom (authors (db w1)) = {[ 1; 2 ]} ∧
  dom (authors (db w2)) = {[ 1 ]} ∧
  dom (authors (db w3)) = {[ 1; 3 ]}.
Proof. repeat split; apply (bool_decide_unpack _); vm_compute; exact I. Qed.

(** [max_length] counts characters: the two bytes of "é" are one. *)
Lemma CharField_counts_characters :
  CharField 1 true "é" = true ∧ CharField 1 true "ee" = false.
Proof. split; reflexivity. Qed.

(** A book without genres displays none. *)
Lemma display_genre_names_sample :
  Book_display_genre String.leb sample_more.genre_store (sample.a_book 1 "Dune") = "".
Proof.
  apply (display_genre_names String.leb sample_more.genre_store (sample.a_book 1 "Dune")).
  reflexivity.
Defined.

(** Copy 2, due on day 738110, is overdue on day 738111 and so on day 738200. *)
Lemma is_overdue_monotone_sample :
  BookInstance.is_overdue 738200 sample.copy2 = true.
Proof.
  apply (is_overdue_monotone 738111 738200 sample.copy2); [lia | reflexivity].
Defined.

End MoreSamples.
